(** * rinexamine: the parsing and analysis core of the RINEX file examiner

    A shallow embedding of [src/rinexamine.py] (class [RINEXExaminer]):
    [detect_file_type], [parse_rinex_header], [parse_observation_data] and
    [xyz_to_latlon], together with the Python built-ins they rest on
    ([str] methods, [int], [float], [datetime], float formatting).

    Conventions.
    - A Python [str] is a [string]; each character is read as the Unicode
      code point of the same number (0..255), so ASCII text is covered
      exactly and the classification predicates below follow the Unicode
      database on that range.
    - A Python [float] is an IEEE 754 binary64 value, here a [spec_float]
      handled with precision 53 and maximal exponent 1024.
    - A Python [dict] with string keys is a [gmap string _].
    - An exception is a value of [exn]; code that may raise lives in the
      [exc] monad. *)

From Stdlib Require Import ZArith Ascii String List Bool Lia SpecFloat DecimalString.
From stdpp Require Import base option list gmap strings fin_maps sorting.

Local Open Scope string_scope.
Local Open Scope Z_scope.

Set Default Proof Using "Type".

(** ** Exceptions *)

Inductive exn : Type :=
  | ValueError
  | OverflowError
  | ZeroDivisionError
  | IndexError
  | KeyError
  | TypeError.

Inductive exc (A : Type) : Type :=
  | Ok (a : A)
  | Raise (e : exn).
Arguments Ok {A} a.
Arguments Raise {A} e.

#[global] Instance exc_ret : MRet exc := fun A a => Ok a.
#[global] Instance exc_bind : MBind exc := fun A B k m =>
  match m with
  | Ok a => k a
  | Raise e => Raise e
  end.

(** [try: m except: pass] for a computation whose only effect is its result *)
Definition catch_all {A : Type} (m : exc A) : option A :=
  match m with
  | Ok a => Some a
  | Raise _ => None
  end.

(** ** Python strings *)

Module Str.

Definition code (c : ascii) : N := N_of_ascii c.

(** [str.isspace] on one character (Unicode White_Space / bidi WS, B, S) *)
Definition isspace (c : ascii) : bool :=
  let n := code c in
  ((9 <=? n) && (n <=? 13) || (28 <=? n) && (n <=? 32)
   || (n =? 133) || (n =? 160))%N.

(** Unicode category Nd: what [\d], [int] and [float] accept as a digit *)
Definition isdecimal (c : ascii) : bool :=
  let n := code c in ((48 <=? n) && (n <=? 57))%N.

(** [str.isdigit] on one character: Nd and the superscript digits *)
Definition isdigit_char (c : ascii) : bool :=
  let n := code c in
  (isdecimal c || (n =? 178) || (n =? 179) || (n =? 185))%N.

(** [str.isalpha] on one character (the letter categories) *)
Definition isalpha_char (c : ascii) : bool :=
  let n := code c in
  ((65 <=? n) && (n <=? 90) || (97 <=? n) && (n <=? 122)
   || (n =? 170) || (n =? 181) || (n =? 186)
   || (192 <=? n) && (n <=? 214) || (216 <=? n) && (n <=? 246)
   || (248 <=? n) && (n <=? 255))%N.

Definition lower_char (c : ascii) : ascii :=
  let n := code c in
  if ((65 <=? n) && (n <=? 90)
      || (192 <=? n) && (n <=? 222) && negb (n =? 215))%N
  then ascii_of_N (n + 32) else c.

Fixpoint all (p : ascii -> bool) (s : string) : bool :=
  match s with
  | EmptyString => true
  | String c s' => p c && all p s'
  end.

Definition nonempty (s : string) : bool :=
  match s with EmptyString => false | String _ _ => true end.

(** [s.isdigit()], [s.isalpha()] *)
Definition isdigit (s : string) : bool := nonempty s && all isdigit_char s.
Definition isalpha (s : string) : bool := nonempty s && all isalpha_char s.

(** [s.lower()] *)
Fixpoint lower (s : string) : string :=
  match s with
  | EmptyString => EmptyString
  | String c s' => String (lower_char c) (lower s')
  end.

(** [s[n:]] and [s[:n]] *)
Fixpoint drop (n : nat) (s : string) : string :=
  match n, s with
  | O, _ => s
  | S _, EmptyString => EmptyString
  | S n', String _ s' => drop n' s'
  end.

Fixpoint take (n : nat) (s : string) : string :=
  match n, s with
  | O, _ => EmptyString
  | S _, EmptyString => EmptyString
  | S n', String c s' => String c (take n' s')
  end.

(** [s[a:b]] for constant indices [0 <= a <= b] *)
Definition slice (a b : nat) (s : string) : string := take (b - a) (drop a s).

(** [s.startswith(p)] *)
Fixpoint startswith (p s : string) : bool :=
  match p, s with
  | EmptyString, _ => true
  | String _ _, EmptyString => false
  | String a p', String b s' => Ascii.eqb a b && startswith p' s'
  end.

(** [s.endswith(p)] *)
Definition endswith (p s : string) : bool :=
  (String.length p <=? String.length s)%nat
  && String.eqb (drop (String.length s - String.length p) s) p.

(** [p in s] *)
Fixpoint contains (p s : string) : bool :=
  startswith p s
  || match s with
     | EmptyString => false
     | String _ s' => contains p s'
     end.

(** [s.lstrip()], [s.rstrip()], [s.strip()] *)
Fixpoint lstrip (s : string) : string :=
  match s with
  | EmptyString => EmptyString
  | String c s' => if isspace c then lstrip s' else s
  end.

Fixpoint rstrip (s : string) : string :=
  match s with
  | EmptyString => EmptyString
  | String c s' =>
      match rstrip s' with
      | EmptyString => if isspace c then EmptyString else String c EmptyString
      | r => String c r
      end
  end.

Definition strip (s : string) : string := rstrip (lstrip s).

(** [s.split()]: the maximal runs of non-whitespace characters *)
Fixpoint split (s : string) : list string :=
  match s with
  | EmptyString => []
  | String c s' =>
      if isspace c then split s'
      else
        match s' with
        | EmptyString => [String c EmptyString]
        | String c' _ =>
            if isspace c' then String c EmptyString :: split s'
            else
              match split s' with
              | t :: ts => String c t :: ts
              | [] => [String c EmptyString]
              end
        end
  end.

(** [sep.join(parts)] *)
Fixpoint join (sep : string) (parts : list string) : string :=
  match parts with
  | [] => EmptyString
  | [p] => p
  | p :: ps => p ++ sep ++ join sep ps
  end.

End Str.

(** ** CompressionClassifier: [detect_file_type] *)

Inductive compression : Type :=
  | none          (* 'none' *)
  | gzip          (* 'gzip' *)
  | hatanaka      (* 'hatanaka' *)
  | hatanaka_gz   (* 'hatanaka+gz' *)
  | compress      (* 'compress' *)
  | bzip2         (* 'bzip2' *)
  | zip.          (* 'zip' *)

(** The regular expressions [\.\d{2}d$] and [\.\d{2}d\.gz$] handed to
    [re.search]: a dot, two decimal digits, [d], the literal [tail], and
    then [$], which holds at the end of the string and just before a
    newline that ends it. *)
Definition at_dollar (s : string) : bool :=
  match s with
  | EmptyString => true
  | String c EmptyString => Ascii.eqb c "010"%char
  | _ => false
  end.

Definition match_NNd_here (tail s : string) : bool :=
  match s with
  | String dot (String d1 (String d2 (String d rest))) =>
      Ascii.eqb dot "."%char && Str.isdecimal d1 && Str.isdecimal d2
      && Ascii.eqb d "d"%char
      && Str.startswith tail rest
      && at_dollar (Str.drop (String.length tail) rest)
  | _ => false
  end.

Fixpoint search_NNd (tail s : string) : bool :=
  match_NNd_here tail s
  || match s with
     | EmptyString => false
     | String _ s' => search_NNd tail s'
     end.

(** [(is_compressed, compression_type, needs_hatanaka)] *)
Definition detect_file_type (filepath : string) : bool * compression * bool :=
  let filename := Str.lower filepath in
  if Str.endswith ".crx" filename || search_NNd "" filename then
    (true, hatanaka, true)
  else if Str.endswith ".gz" filename then
    if Str.contains ".crx.gz" filename || search_NNd ".gz" filename then
      (true, hatanaka_gz, true)
    else (true, gzip, false)
  else if Str.endswith ".z" filename then (true, compress, true)
  else if Str.endswith ".bz2" filename then (true, bzip2, true)
  else if Str.endswith ".zip" filename then (true, zip, true)
  else (false, none, false).

(** ** Python numbers: [int], [float] and their parsers *)

Module Num.

Definition digit_val (c : ascii) : Z := Z.of_N (Str.code c) - 48.

(** The rest of a [digitpart] after its first digit,
    [(["_"] digit)*]: the value so far, the number of digits read and
    the unread rest. *)
Fixpoint digits_go (s : string) (acc : Z) (n : nat) : Z * nat * string :=
  match s with
  | String c s' =>
      if Str.isdecimal c then digits_go s' (10 * acc + digit_val c) (S n)
      else if Ascii.eqb c "_"%char then
        match s' with
        | String c' s'' =>
            if Str.isdecimal c'
            then digits_go s'' (10 * acc + digit_val c') (S n)
            else (acc, n, s)
        | EmptyString => (acc, n, s)
        end
      else (acc, n, s)
  | EmptyString => (acc, n, s)
  end.

(** [digitpart ::= digit (["_"] digit)*], continuing the value [acc] *)
Definition digitpart (acc : Z) (s : string) : option (Z * nat * string) :=
  match s with
  | String c s' =>
      if Str.isdecimal c then Some (digits_go s' (10 * acc + digit_val c) 1%nat)
      else None
  | EmptyString => None
  end.

(** An optional sign: [true] for [-] *)
Definition sign (s : string) : bool * string :=
  match s with
  | String c s' =>
      if Ascii.eqb c "-"%char then (true, s')
      else if Ascii.eqb c "+"%char then (false, s')
      else (false, s)
  | EmptyString => (false, s)
  end.

(** The white space that [int] and [float] skip around a number: the
    white space of ASCII, and the Unicode spaces above 127, which both
    turn into blanks first.  The separators U+001C to U+001F, which
    [str.strip] removes, are not among them. *)
Definition isspace (c : ascii) : bool :=
  let n := Str.code c in
  ((9 <=? n) && (n <=? 13) || (n =? 32) || (n =? 133) || (n =? 160))%N.

Fixpoint lstrip (s : string) : string :=
  match s with
  | EmptyString => EmptyString
  | String c s' => if isspace c then lstrip s' else s
  end.

Fixpoint rstrip (s : string) : string :=
  match s with
  | EmptyString => EmptyString
  | String c s' =>
      match rstrip s' with
      | EmptyString => if isspace c then EmptyString else String c EmptyString
      | r => String c r
      end
  end.

Definition strip (s : string) : string := rstrip (lstrip s).

(** [int(s)] for a string [s] *)
Definition int_of_str (s : string) : exc Z :=
  let '(neg, s1) := sign (strip s) in
  match digitpart 0 s1 with
  | Some (v, _, EmptyString) => Ok (if neg then - v else v)
  | _ => Raise ValueError
  end.

End Num.

Module Float.

Abbreviation float := spec_float.
Definition prec : Z := 53.
Definition emax : Z := 1024.

Definition add : float -> float -> float := SFadd prec emax.
Definition sub : float -> float -> float := SFsub prec emax.
Definition mul : float -> float -> float := SFmul prec emax.
Definition ieee_div : float -> float -> float := SFdiv prec emax.
Definition ieee_sqrt : float -> float := SFsqrt prec emax.
Definition ltb : float -> float -> bool := SFltb.
Definition leb : float -> float -> bool := SFleb.

Definition is_zero (x : float) : bool :=
  match x with S754_zero _ => true | _ => false end.

(** [x / y] *)
Definition truediv (x y : float) : exc float :=
  if is_zero y then Raise ZeroDivisionError else Ok (ieee_div x y).

(** The float nearest to an integer: [float(n)], and [n / 1] *)
Definition of_Z (n : Z) : float := binary_normalize prec emax n 0 false.

(** The float nearest to [(-1)^neg * m * 10^e] (ties to even) *)
Definition of_decimal (neg : bool) (m e : Z) : float :=
  match m with
  | Zpos p =>
      if 0 <=? e then binary_round prec emax neg (p * Z.to_pos (10 ^ e)) 0
      else
        ieee_div (S754_finite neg p 0)
                 (S754_finite false (Z.to_pos (10 ^ (- e))) 0)
  | _ => S754_zero neg
  end.

(** [int(x)]: truncation towards zero *)
Definition to_int (x : float) : exc Z :=
  match x with
  | S754_nan => Raise ValueError
  | S754_infinity _ => Raise OverflowError
  | S754_zero _ => Ok 0
  | S754_finite s m e =>
      let v := if 0 <=? e then Z.pos m * 2 ^ e else Z.pos m / 2 ^ (- e) in
      Ok (if s then - v else v)
  end.

(** [exponent ::= ("e" | "E") [sign] digitpart], absent when the next
    character is no [e]; [None] when it is ill-formed *)
Definition exponent (s : string) : option (Z * string) :=
  match s with
  | String c s' =>
      if Ascii.eqb c "e"%char || Ascii.eqb c "E"%char then
        let '(neg, s1) := Num.sign s' in
        match Num.digitpart 0 s1 with
        | Some (v, _, rest) => Some (if neg then - v else v, rest)
        | None => None
        end
      else Some (0, s)
  | EmptyString => Some (0, s)
  end.

(** [number ::= [digitpart] "." digitpart | digitpart ["."]]:
    the digits read as one integer and the number of fraction digits *)
Definition number (s : string) : option (Z * nat * string) :=
  match Num.digitpart 0 s with
  | Some (ip, _, String c rest) =>
      if Ascii.eqb c "."%char then
        match Num.digitpart ip rest with
        | Some r => Some r
        | None => Some (ip, O, rest)
        end
      else Some (ip, O, String c rest)
  | Some (ip, _, EmptyString) => Some (ip, O, EmptyString)
  | None =>
      match s with
      | String c rest =>
          if Ascii.eqb c "."%char then Num.digitpart 0 rest else None
      | EmptyString => None
      end
  end.

(** [float(s)] for a string [s] *)
Definition of_str (s : string) : exc float :=
  let '(neg, s1) := Num.sign (Num.strip s) in
  let low := Str.lower s1 in
  if String.eqb low "inf" || String.eqb low "infinity" then
    Ok (S754_infinity neg)
  else if String.eqb low "nan" then Ok S754_nan
  else
    match number s1 with
    | Some (m, nfrac, s2) =>
        match exponent s2 with
        | Some (e, EmptyString) => Ok (of_decimal neg m (e - Z.of_nat nfrac))
        | _ => Raise ValueError
        end
    | None => Raise ValueError
    end.

(** A float literal of the source text, read as [float] reads it *)
Definition lit (s : string) : float :=
  match of_str s with
  | Ok x => x
  | Raise _ => S754_nan
  end.

Definition dec (n : Z) : string := NilZero.string_of_uint (N.to_uint (Z.to_N n)).

Fixpoint zeros (n : nat) : string :=
  match n with
  | O => EmptyString
  | S n' => String "0"%char (zeros n')
  end.

(** [|x| * 10^p] rounded to the nearest integer, ties to even *)
Definition scaled (p : nat) (m : positive) (e : Z) : Z :=
  if 0 <=? e then Z.pos m * 2 ^ e * 10 ^ Z.of_nat p
  else
    let num := Z.pos m * 10 ^ Z.of_nat p in
    let den := 2 ^ (- e) in
    let q := num / den in
    let r := num mod den in
    match 2 * r ?= den with
    | Lt => q
    | Gt => q + 1
    | Eq => if Z.even q then q else q + 1
    end.

(** [format(x, '.pf')], for [p > 0] *)
Definition format_f (p : nat) (x : float) : string :=
  let fixed (neg : bool) (n : Z) :=
    let frac := dec (n mod 10 ^ Z.of_nat p) in
    (if neg then "-" else "")
    ++ dec (n / 10 ^ Z.of_nat p) ++ "."
    ++ zeros (p - String.length frac) ++ frac in
  match x with
  | S754_nan => "nan"
  | S754_infinity neg => if neg then "-inf" else "inf"
  | S754_zero neg => fixed neg 0
  | S754_finite neg m e => fixed neg (scaled p m e)
  end.

End Float.

(** ** [datetime.datetime] *)

Record datetime : Type := Datetime {
  dt_year : Z; dt_month : Z; dt_day : Z;
  dt_hour : Z; dt_minute : Z; dt_second : Z
}.

Definition is_leap (y : Z) : bool :=
  (y mod 4 =? 0) && (negb (y mod 100 =? 0) || (y mod 400 =? 0)).

Definition days_in_month (y m : Z) : Z :=
  if m =? 2 then (if is_leap y then 29 else 28)
  else if (m =? 4) || (m =? 6) || (m =? 9) || (m =? 11) then 30
  else 31.

(** [datetime(year, month, day, hour, minute, second)]: the constructor
    checks every field and raises [ValueError] outside its range. *)
Definition mk_datetime (y mo d h mi s : Z) : exc datetime :=
  if (1 <=? y) && (y <=? 9999) && (1 <=? mo) && (mo <=? 12)
     && (1 <=? d) && (d <=? days_in_month y mo)
     && (0 <=? h) && (h <=? 23) && (0 <=? mi) && (mi <=? 59)
     && (0 <=? s) && (s <=? 59)
  then Ok (Datetime y mo d h mi s)
  else Raise ValueError.

Definition days_before_year (y : Z) : Z :=
  let y1 := y - 1 in y1 * 365 + y1 / 4 - y1 / 100 + y1 / 400.

Fixpoint days_before_month_from (y : Z) (m : Z) (n : nat) : Z :=
  match n with
  | O => 0
  | S n' => days_in_month y m + days_before_month_from y (m + 1) n'
  end.

Definition days_before_month (y m : Z) : Z :=
  days_before_month_from y 1 (Z.to_nat (m - 1)).

(** [t.toordinal()], and the seconds since the start of day 0 *)
Definition toordinal (t : datetime) : Z :=
  days_before_year (dt_year t) + days_before_month (dt_year t) (dt_month t)
  + dt_day t.

Definition to_seconds (t : datetime) : Z :=
  toordinal t * 86400 + dt_hour t * 3600 + dt_minute t * 60 + dt_second t.

(** [(b - a).total_seconds()]: the timedelta holds whole seconds here, and
    its total is the float nearest to that integer. *)
Definition delta_seconds (b a : datetime) : Z := to_seconds b - to_seconds a.
Definition total_seconds (b a : datetime) : Float.float :=
  Float.of_Z (delta_seconds b a).

(** ** IntervalAnalyzer: the end of [parse_observation_data] *)

(** [lst[i]] *)
Definition index {A : Type} (l : list A) (i : nat) : exc A :=
  match l !! i with
  | Some x => Ok x
  | None => Raise IndexError
  end.

(** [0.001 <= interval <= 3600] *)
Definition plausible (interval : Float.float) : bool :=
  Float.leb (Float.lit "0.001") interval && Float.leb interval (Float.of_Z 3600).

(** [for i in range(len(epoch_times) - 1): ...], the indices still to visit
    in [todo] and the list being appended to in [intervals] *)
Fixpoint collect_intervals (epoch_times : list datetime) (todo : list nat)
    (intervals : list Float.float) : exc (list Float.float) :=
  match todo with
  | [] => Ok intervals
  | i :: todo' =>
      later ← index epoch_times (i + 1);
      earlier ← index epoch_times i;
      let interval := total_seconds later earlier in
      collect_intervals epoch_times todo'
        (if plausible interval then intervals ++ [interval] else intervals)
  end.

(** [min(xs)] and [max(xs)] keep the first extremal item *)
Definition py_min (x : Float.float) (xs : list Float.float) : Float.float :=
  fold_left (fun cur item => if Float.ltb item cur then item else cur) xs x.
Definition py_max (x : Float.float) (xs : list Float.float) : Float.float :=
  fold_left (fun cur item => if Float.ltb cur item then item else cur) xs x.

(** [sum(xs)]: from the integer 0, left to right *)
Definition py_sum (xs : list Float.float) : Float.float :=
  fold_left Float.add xs (Float.of_Z 0).

(** The statistics of a non-empty list of retained intervals:
    [(calculated_interval, interval_consistent)] *)
Definition interval_stats (first : Float.float) (others : list Float.float)
    : exc (string * bool) :=
  let intervals := first :: others in
  let min_interval := py_min first others in
  let max_interval := py_max first others in
  avg_interval ← Float.truediv (py_sum intervals)
                   (Float.of_Z (Z.of_nat (length intervals)));
  if Float.ltb (Float.sub max_interval min_interval)
               (Float.mul (Float.lit "0.01") avg_interval)
  then Ok (Float.format_f 3 avg_interval, true)
  else Ok (Float.format_f 3 avg_interval ++ " (range: "
           ++ Float.format_f 3 min_interval ++ "-"
           ++ Float.format_f 3 max_interval ++ ")", false).

(** Source lines 552-576: [None] when the keys [calculated_interval] and
    [interval_consistent] keep their initial state. *)
Definition calculate_interval (epoch_times : list datetime)
    : exc (option (string * bool)) :=
  if (2 <=? length epoch_times)%nat then
    intervals ← collect_intervals epoch_times
                  (seq 0 (length epoch_times - 1)) [];
    match intervals with
    | first :: others => r ← interval_stats first others; Ok (Some r)
    | [] => Ok None
    end
  else Ok None.

(** ** ObservationScanner: [parse_observation_data] *)

(** The local variables of the scan, with the two entries of [data] it
    updates on the way *)
Record scan_state : Type := ScanState {
  in_epoch : bool;
  first_epoch_time : option datetime;
  last_epoch_time : option datetime;
  epoch_count : Z;
  epoch_times : list datetime;
  constellations_in_data : gset string
}.

Definition scan_init : scan_state :=
  ScanState false None None 0 [] ∅.

(** The returned dictionary; [actual_start] and [actual_end] hold the
    timestamps that the source renders with [strftime]. *)
Record observation_record : Type := ObservationRecord {
  or_constellations_in_data : gset string;
  or_actual_start : option datetime;
  or_actual_end : option datetime;
  or_duration_seconds : Float.float;
  or_num_epochs : Z;
  or_calculated_interval : option string;
  or_interval_consistent : option bool;
  or_epoch_times : list datetime
}.

(** [for i, line in enumerate(lines): if "END OF HEADER" in line: ...] *)
Fixpoint find_header_end (i : nat) (lines : list string) : nat :=
  match lines with
  | [] => O
  | line :: rest =>
      if Str.contains "END OF HEADER" line then S i
      else find_header_end (S i) rest
  end.

Definition body_lines (lines : list string) : list string :=
  drop (find_header_end 0 lines) lines.

(** The bookkeeping shared by both epoch layouts once [epoch_time] exists *)
Definition note_epoch (epoch_time : datetime) (st : scan_state) : scan_state :=
  {| in_epoch := in_epoch st;
     first_epoch_time :=
       match first_epoch_time st with
       | None => Some epoch_time
       | Some t => Some t
       end;
     last_epoch_time := Some epoch_time;
     epoch_count := epoch_count st;
     epoch_times :=
       if (length (epoch_times st) <? 100)%nat
       then epoch_times st ++ [epoch_time] else epoch_times st;
     constellations_in_data := constellations_in_data st |}.

Definition set_in_epoch (st : scan_state) : scan_state :=
  {| in_epoch := true;
     first_epoch_time := first_epoch_time st;
     last_epoch_time := last_epoch_time st;
     epoch_count := epoch_count st;
     epoch_times := epoch_times st;
     constellations_in_data := constellations_in_data st |}.

Definition count_epoch (st : scan_state) : scan_state :=
  {| in_epoch := in_epoch st;
     first_epoch_time := first_epoch_time st;
     last_epoch_time := last_epoch_time st;
     epoch_count := epoch_count st + 1;
     epoch_times := epoch_times st;
     constellations_in_data := constellations_in_data st |}.

Definition add_constellation (system : string) (st : scan_state) : scan_state :=
  {| in_epoch := in_epoch st;
     first_epoch_time := first_epoch_time st;
     last_epoch_time := last_epoch_time st;
     epoch_count := epoch_count st;
     epoch_times := epoch_times st;
     constellations_in_data := {[system]} ∪ constellations_in_data st |}.

(** The [try] body of the v3.x branch up to the construction of
    [epoch_time]; [Ok None] when the line has fewer than 7 fields. *)
Definition v3_epoch_time (line : string) : exc (option datetime) :=
  match Str.split line with
  | _ :: p1 :: p2 :: p3 :: p4 :: p5 :: p6 :: _ =>
      year ← Num.int_of_str p1;
      month ← Num.int_of_str p2;
      day ← Num.int_of_str p3;
      hour ← Num.int_of_str p4;
      minute ← Num.int_of_str p5;
      second ← Float.of_str p6;
      isec ← Float.to_int second;
      t ← mk_datetime year month day hour minute isec;
      Ok (Some t)
  | _ => Ok None
  end.

(** The [try] body of the v2.x branch up to the construction of
    [epoch_time] *)
Definition v2_epoch_time (line : string) : exc datetime :=
  yy ← Num.int_of_str (Str.slice 1 3 line);
  let year := if 80 <=? yy then yy + 1900 else yy + 2000 in
  month ← Num.int_of_str (Str.slice 4 6 line);
  day ← Num.int_of_str (Str.slice 7 9 line);
  hour ← Num.int_of_str (Str.slice 10 12 line);
  minute ← Num.int_of_str (Str.slice 13 15 line);
  second ← Float.of_str (Str.slice 16 26 line);
  isec ← Float.to_int second;
  mk_datetime year month day hour minute isec.

(** [line[0] == ' '], evaluated only after [len(line) > 29] *)
Definition first_is_space (line : string) : bool :=
  match line with
  | String c _ => Ascii.eqb c " "%char
  | EmptyString => false
  end.

(** The test of the v2.x branch *)
Definition v2_epoch_test (line : string) : bool :=
  (29 <? String.length line)%nat && first_is_space line
  && Str.isdigit (Str.strip (Str.slice 1 3 line)).

(** One iteration of [for line in lines[header_end:]] *)
Definition body_step (st : scan_state) (line : string) : scan_state :=
  if Str.startswith ">" line then
    let st := count_epoch (set_in_epoch st) in
    match catch_all (v3_epoch_time line) with
    | Some (Some epoch_time) => note_epoch epoch_time st
    | Some None | None => st
    end
  else if v2_epoch_test line then
    match catch_all (v2_epoch_time line) with
    | Some epoch_time => set_in_epoch (note_epoch epoch_time (count_epoch st))
    | None => st
    end
  else if in_epoch st && (3 <? String.length line)%nat then
    let sat_id := Str.strip (Str.slice 0 3 line) in
    match sat_id with
    | String c _ =>
        if (2 <=? String.length sat_id)%nat && Str.isalpha_char c
        then add_constellation (String c EmptyString) st
        else st
    | EmptyString => st
    end
  else st.

Definition scan_body (lines : list string) : scan_state :=
  fold_left body_step lines scan_init.

Definition parse_observation_data (lines : list string)
    : exc observation_record :=
  let st := scan_body (body_lines lines) in
  let timed :=
    match first_epoch_time st, last_epoch_time st with
    | Some first, Some last =>
        (Some first, Some last, total_seconds last first, epoch_count st)
    | _, _ => (None, None, Float.of_Z 0, 0)
    end in
  let '(actual_start, actual_end, duration, num_epochs) := timed in
  calc ← calculate_interval (epoch_times st);
  Ok {| or_constellations_in_data := constellations_in_data st;
        or_actual_start := actual_start;
        or_actual_end := actual_end;
        or_duration_seconds := duration;
        or_num_epochs := num_epochs;
        or_calculated_interval := fst <$> calc;
        or_interval_consistent := snd <$> calc;
        or_epoch_times := epoch_times st |}.

(** ** The header record: the dictionary [data] of [parse_rinex_header] *)

Inductive pyval : Type :=
  | VStr (s : string)
  | VDict (m : gmap string (list string))
  | VSet (s : gset string).

Abbreviation header_record := (gmap string pyval).

Definition header_init : header_record :=
  <["version" := VStr "Unknown"]> (
  <["file_type" := VStr "Unknown"]> (
  <["satellite_system" := VStr "Unknown"]> (
  <["observation_types" := VDict ∅]> (
  <["antenna_type" := VStr "Unknown"]> (
  <["antenna_height" := VStr "Unknown"]> (
  <["antenna_delta" := VStr "Unknown"]> (
  <["approx_position" := VStr "Unknown"]> (
  <["lat_lon_elev" := VStr "Not calculated"]> (
  <["interval" := VStr "Unknown"]> (
  <["time_first_obs" := VStr "Unknown"]> (
  <["time_last_obs" := VStr "Unknown"]> (
  <["leap_seconds" := VStr "Unknown"]> (
  <["constellations_obs" := VSet ∅]> (
  <["constellations_nav" := VSet ∅]> (
  <["marker_name" := VStr "Unknown"]> (
  <["marker_number" := VStr "Unknown"]> (
  <["marker_type" := VStr "Unknown"]> (
  <["observer" := VStr "Unknown"]> (
  <["agency" := VStr "Unknown"]> (
  <["receiver_number" := VStr "Unknown"]> (
  <["receiver_type" := VStr "Unknown"]> (
  <["receiver_version" := VStr "Unknown"]> (
  <["antenna_number" := VStr "Unknown"]> ∅))))))))))))))))))))))).

(** [data[k]] where the code goes on to use the value as a dict, a set or
    a string *)
Definition get_dict (d : header_record) (k : string)
    : exc (gmap string (list string)) :=
  match d !! k with
  | Some (VDict m) => Ok m
  | Some _ => Raise TypeError
  | None => Raise KeyError
  end.

Definition get_set (d : header_record) (k : string) : exc (gset string) :=
  match d !! k with
  | Some (VSet s) => Ok s
  | Some _ => Raise TypeError
  | None => Raise KeyError
  end.

Definition as_str (v : pyval) : exc string :=
  match v with
  | VStr s => Ok s
  | _ => Raise TypeError
  end.

(** [s[0]] *)
Definition char0 (s : string) : exc ascii :=
  match s with
  | String c _ => Ok c
  | EmptyString => Raise IndexError
  end.

(** [lst[start:stop]] with Python's reading of negative and overlong
    indices *)
Definition clamp_index (len i : Z) : Z :=
  if i <? 0 then Z.max (i + len) 0 else Z.min i len.

Definition list_slice {A : Type} (start stop : Z) (l : list A) : list A :=
  let len := Z.of_nat (length l) in
  let a := clamp_index len start in
  let b := clamp_index len stop in
  take (Z.to_nat (b - a)) (drop (Z.to_nat a) l).

(** The branch of the [if]/[elif] chain that a label selects *)
Inductive field : Type :=
  | RinexVersion | MarkerName | MarkerNumber | MarkerType | ObserverAgency
  | ReceiverInfo | AntennaType | AntennaDelta | ApproxPosition | Interval
  | TimeOfFirstObs | TimeOfLastObs | LeapSeconds | SysObsTypes
  | TypesOfObserv | NoField.

Definition select_field (label : string) : field :=
  if Str.contains "RINEX VERSION" label then RinexVersion
  else if Str.contains "MARKER NAME" label then MarkerName
  else if Str.contains "MARKER NUMBER" label then MarkerNumber
  else if Str.contains "MARKER TYPE" label then MarkerType
  else if Str.contains "OBSERVER / AGENCY" label then ObserverAgency
  else if Str.contains "REC # / TYPE / VERS" label then ReceiverInfo
  else if Str.contains "ANT # / TYPE" label
          || Str.contains "ANTENNA TYPE" label then AntennaType
  else if Str.contains "ANTENNA: DELTA H/E/N" label
          || Str.contains "ANTENNA DELTA" label then AntennaDelta
  else if Str.contains "APPROX POSITION XYZ" label then ApproxPosition
  else if Str.contains "INTERVAL" label then Interval
  else if Str.contains "TIME OF FIRST OBS" label then TimeOfFirstObs
  else if Str.contains "TIME OF LAST OBS" label then TimeOfLastObs
  else if Str.contains "LEAP SECONDS" label then LeapSeconds
  else if Str.contains "SYS / # / OBS TYPES" label then SysObsTypes
  else if Str.contains "TYPES OF OBSERV" label then TypesOfObserv
  else NoField.

(** The degree sign, code point 176 *)
Definition degree : string := String (ascii_of_N 176) EmptyString.

(** ** GeodeticConverter and HeaderParser

    [math.atan2], [math.sin] and [math.cos] belong to the platform's C
    library; the development is parametric in them.  [math.sqrt] is the
    correctly rounded IEEE operation, and [math.pi] a constant. *)

Definition math_pi : Float.float := Float.lit "3.141592653589793".

Definition math_sqrt (x : Float.float) : exc Float.float :=
  match x with
  | S754_finite true _ _ | S754_infinity true => Raise ValueError
  | _ => Ok (Float.ieee_sqrt x)
  end.

Inductive ctrl : Type :=
  | Next (d : header_record)   (* go on with the next line *)
  | Break.                     (* [break] *)

Section Parser.

Variable math_atan2 : Float.float -> Float.float -> Float.float.
Variable math_sin : Float.float -> exc Float.float.
Variable math_cos : Float.float -> exc Float.float.

(** [x * 180.0 / math.pi] *)
Definition degrees (x : Float.float) : exc Float.float :=
  Float.truediv (Float.mul x (Float.lit "180.0")) math_pi.

(** [a / math.sqrt(1 - e2 * sin_lat * sin_lat)] *)
Definition prime_vertical (a e2 sin_lat : Float.float) : exc Float.float :=
  root ← math_sqrt (Float.sub (Float.of_Z 1)
                      (Float.mul (Float.mul e2 sin_lat) sin_lat));
  Float.truediv a root.

(** The body of [for _ in range(5)] *)
Definition refine_lat (a e2 z p lat : Float.float) : exc Float.float :=
  sin_lat ← math_sin lat;
  N ← prime_vertical a e2 sin_lat;
  Ok (math_atan2 (Float.add z (Float.mul (Float.mul e2 N) sin_lat)) p).

(** [for _ in range(n): lat = body(lat)] *)
Fixpoint for_range (n : nat) (body : Float.float -> exc Float.float)
    (lat : Float.float) : exc Float.float :=
  match n with
  | O => Ok lat
  | S n' => lat' ← body lat; for_range n' body lat'
  end.

Definition xyz_to_latlon (x y z : Float.float)
    : exc (Float.float * Float.float * Float.float) :=
  let a := Float.lit "6378137.0" in
  f ← Float.truediv (Float.of_Z 1) (Float.lit "298.257223563");
  let e2 := Float.sub (Float.mul (Float.of_Z 2) f) (Float.mul f f) in
  lon ← degrees (math_atan2 y x);
  p ← math_sqrt (Float.add (Float.mul x x) (Float.mul y y));
  let lat := math_atan2 z (Float.mul p (Float.sub (Float.of_Z 1) e2)) in
  lat ← for_range 5 (refine_lat a e2 z p) lat;
  sin_lat ← math_sin lat;
  N ← prime_vertical a e2 sin_lat;
  cos_lat ← math_cos lat;
  q ← Float.truediv p cos_lat;
  let elev := Float.sub q N in
  lat ← degrees lat;
  Ok (lat, lon, elev).

(** The [try] body of the "APPROX POSITION XYZ" branch: the new value of
    [lat_lon_elev], if one is assigned *)
Definition derive_position (content : string) : exc (option string) :=
  coords ← mapM Float.of_str (Str.split content);
  match coords with
  | [x; y; z] =>
      '(lat, lon, elev) ← xyz_to_latlon x y z;
      Ok (Some ("Lat: " ++ Float.format_f 8 lat ++ degree
                ++ ", Lon: " ++ Float.format_f 8 lon ++ degree
                ++ ", Elev: " ++ Float.format_f 3 elev ++ "m"))
  | _ => Ok None
  end.

Definition set_str (k v : string) (d : header_record) : header_record :=
  <[k := VStr v]> d.

(** The branches of the chain, on the stripped [content] of the line *)
Definition handle (f : field) (content : string) (d : header_record)
    : exc header_record :=
  let parts := Str.split content in
  match f with
  | RinexVersion =>
      match parts with
      | p0 :: p1 :: rest =>
          let d := set_str "file_type" p1 (set_str "version" p0 d) in
          match rest with
          | p2 :: _ => Ok (set_str "satellite_system" p2 d)
          | [] => Ok d
          end
      | _ => Ok d
      end
  | MarkerName => Ok (set_str "marker_name" content d)
  | MarkerNumber => Ok (set_str "marker_number" content d)
  | MarkerType => Ok (set_str "marker_type" content d)
  | ObserverAgency =>
      match parts with
      | p0 :: rest =>
          let d := set_str "observer" p0 d in
          match rest with
          | _ :: _ => Ok (set_str "agency" (Str.join " " rest) d)
          | [] => Ok d
          end
      | [] => Ok d
      end
  | ReceiverInfo =>
      match parts with
      | p0 :: rest1 =>
          let d := set_str "receiver_number" p0 d in
          match rest1 with
          | p1 :: rest2 =>
              let d := set_str "receiver_type" p1 d in
              match rest2 with
              | p2 :: _ => Ok (set_str "receiver_version" p2 d)
              | [] => Ok d
              end
          | [] => Ok d
          end
      | [] => Ok d
      end
  | AntennaType =>
      match parts with
      | p0 :: rest =>
          if (2 <=? length parts)%nat && negb (Str.isalpha p0) then
            Ok (set_str "antenna_type" (Str.join " " rest)
                  (set_str "antenna_number" p0 d))
          else Ok (set_str "antenna_type" content d)
      | [] => Ok d
      end
  | AntennaDelta =>
      match parts with
      | p0 :: rest =>
          let d := set_str "antenna_height" p0 d in
          match rest with
          | p1 :: p2 :: _ =>
              Ok (set_str "antenna_delta"
                    ("H:" ++ p0 ++ " E:" ++ p1 ++ " N:" ++ p2) d)
          | _ => Ok d
          end
      | [] => Ok d
      end
  | ApproxPosition =>
      let d := set_str "approx_position" content d in
      match catch_all (derive_position content) with
      | Some (Some text) => Ok (set_str "lat_lon_elev" text d)
      | Some None | None => Ok d
      end
  | Interval => Ok (set_str "interval" content d)
  | TimeOfFirstObs => Ok (set_str "time_first_obs" content d)
  | TimeOfLastObs => Ok (set_str "time_last_obs" content d)
  | LeapSeconds => Ok (set_str "leap_seconds" content d)
  | SysObsTypes =>
      match parts with
      | p0 :: p1 :: rest =>
          c0 ← char0 p0;
          if Str.isalpha_char c0 && (String.length p0 =? 1)%nat then
            match Num.int_of_str p1 with
            | Ok _ =>
                types ← get_dict d "observation_types";
                let d := <["observation_types" := VDict (<[p0 := rest]> types)]> d in
                systems ← get_set d "constellations_obs";
                let d := <["constellations_obs" := VSet ({[p0]} ∪ systems)]> d in
                Ok (set_str "_last_obs_system" p0 d)
            | Raise ValueError => Ok d
            | Raise e => Raise e
            end
          else
            match d !! "_last_obs_system" with
            | Some v =>
                sys ← as_str v;
                types ← get_dict d "observation_types";
                match types !! sys with
                | Some listed =>
                    Ok (<["observation_types" :=
                            VDict (<[sys := (listed ++ parts)%list]> types)]> d)
                | None => Ok d
                end
            | None => Ok d
            end
      | _ => Ok d
      end
  | TypesOfObserv =>
      match parts with
      | p0 :: _ =>
          match Num.int_of_str p0 with
          | Ok num_obs =>
              types ← get_dict d "observation_types";
              Ok (<["observation_types" :=
                      VDict (<["ALL" := list_slice 1 (1 + num_obs) parts]> types)]> d)
          | Raise ValueError => Ok d
          | Raise e => Raise e
          end
      | [] => Ok d
      end
  | NoField => Ok d
  end.

Definition line_label (line : string) : string := Str.strip (Str.drop 60 line).
Definition line_content (line : string) : string := Str.strip (Str.take 60 line).

(** One iteration of [for line in lines] *)
Definition header_step (d : header_record) (line : string) : exc ctrl :=
  if (String.length line <? 60)%nat then Ok (Next d)
  else
    let label := line_label line in
    let content := line_content line in
    if Str.contains "END OF HEADER" label then Ok Break
    else d' ← handle (select_field label) content d; Ok (Next d').

(** The loop, returning the dictionary together with the lines it has not
    reached *)
Fixpoint header_loop (d : header_record) (lines : list string)
    : exc (header_record * list string) :=
  match lines with
  | [] => Ok (d, [])
  | line :: rest =>
      c ← header_step d line;
      match c with
      | Break => Ok (d, rest)
      | Next d' => header_loop d' rest
      end
  end.

(** [if '_last_obs_system' in data: del data['_last_obs_system']] *)
Definition cleanup (d : header_record) : header_record :=
  match d !! "_last_obs_system" with
  | Some _ => delete "_last_obs_system" d
  | None => d
  end.

Definition parse_rinex_header (lines : list string) : exc header_record :=
  '(d, _) ← header_loop header_init lines;
  Ok (cleanup d).

End Parser.

(** What the scan keeps true of [data]: the two containers stay in place,
    and the continuation key, when present, holds a string. *)
Definition well_formed (d : header_record) : Prop :=
  (exists m, d !! "observation_types" = Some (VDict m))
  /\ (exists s, d !! "constellations_obs" = Some (VSet s))
  /\ (forall v, d !! "_last_obs_system" = Some v -> exists s, v = VStr s).

(** The observation types listed under a system code, if any *)
Definition obs_types_of (d : header_record) (sys : string)
    : option (list string) :=
  match d !! "observation_types" with
  | Some (VDict m) => m !! sys
  | _ => None
  end.

(** The line ends the header: the [break] test of [parse_rinex_header] *)
Definition is_terminator (line : string) : bool :=
  (60 <=? String.length line)%nat
  && Str.contains "END OF HEADER" (line_label line).

(** An instance of the C library for running the parser on concrete
    headers: it answers not-a-number and a domain error. *)
Definition atan2_nan (y x : Float.float) : Float.float := S754_nan.
Definition domain_error (x : Float.float) : exc Float.float := Raise ValueError.

(** A header line: [content] padded with blanks to 60 columns, then [label] *)
Definition header_line (content label : string) : string :=
  Str.take 60 (content ++ "                                                            ")
  ++ label.

(** The first item of an observation-types line names a system: the test
    [parts[0][0].isalpha() and len(parts[0]) == 1] *)
Definition starts_system (tok : string) : bool :=
  match tok with
  | String c EmptyString => Str.isalpha_char c
  | _ => false
  end.

Section PositionFailure.

Variable math_atan2 : Float.float -> Float.float -> Float.float.
Variable math_sin : Float.float -> exc Float.float.
Variable math_cos : Float.float -> exc Float.float.

(** The ways in which the position of an "APPROX POSITION XYZ" line is
    not derived: an item that [float] rejects, a number of items other
    than three, an exception inside [xyz_to_latlon]. *)
Inductive position_fails (content : string) : Prop :=
  | bad_float (e : exn) :
      mapM Float.of_str (Str.split content) = Raise e ->
      position_fails content
  | not_three (coords : list Float.float) :
      mapM Float.of_str (Str.split content) = Ok coords ->
      length coords <> 3%nat ->
      position_fails content
  | conversion_raises (x y z : Float.float) (e : exn) :
      mapM Float.of_str (Str.split content) = Ok [x; y; z] ->
      xyz_to_latlon math_atan2 math_sin math_cos x y z = Raise e ->
      position_fails content.

End PositionFailure.

(** A header with a two-line block of observation types for GPS, the way
    RINEX 3 receivers write it *)
Definition two_line_header : list string :=
  [ header_line "     3.04           OBSERVATION DATA    M" "RINEX VERSION / TYPE";
    header_line "G   15 C1C L1C D1C S1C C2W L2W D2W S2W C5Q L5Q D5Q S5Q C1L" "SYS / # / OBS TYPES";
    header_line "       L1L D1L" "SYS / # / OBS TYPES";
    header_line "    30.000" "INTERVAL";
    header_line "" "END OF HEADER" ].

(** ** The geodetic conversion as the specification words it

    Section 4.2: longitude is [atan2(y, x)]; latitude starts from
    [atan2(z, p (1 - e2))] with [p = sqrt(x^2 + y^2)] and [e2 = 2f - f^2];
    it is refined five times by [N = a / sqrt(1 - e2 sin^2(lat))],
    [lat = atan2(z + e2 N sin(lat), p)]; the elevation is
    [p / cos(lat) - N] for the final [N].  Angles are returned in degrees.
    Products are taken from left to right, as Python takes them. *)

Section GeodeticSpec.

Variable math_atan2 : Float.float -> Float.float -> Float.float.
Variable math_sin : Float.float -> exc Float.float.
Variable math_cos : Float.float -> exc Float.float.

Definition wgs84_a : Float.float := Float.lit "6378137.0".
Definition wgs84_f : exc Float.float :=
  Float.truediv (Float.of_Z 1) (Float.lit "298.257223563").

Definition eccentricity2 (f : Float.float) : Float.float :=
  Float.sub (Float.mul (Float.of_Z 2) f) (Float.mul f f).

Definition radius_N (e2 lat : Float.float) : exc Float.float :=
  s ← math_sin lat;
  root ← math_sqrt (Float.sub (Float.of_Z 1) (Float.mul (Float.mul e2 s) s));
  Float.truediv wgs84_a root.

Definition refinement (e2 z p lat : Float.float) : exc Float.float :=
  N ← radius_N e2 lat;
  s ← math_sin lat;
  Ok (math_atan2 (Float.add z (Float.mul (Float.mul e2 N) s)) p).

(** The latitude after [k] refinements *)
Fixpoint latitude (k : nat) (e2 z p : Float.float) : exc Float.float :=
  match k with
  | O => Ok (math_atan2 z (Float.mul p (Float.sub (Float.of_Z 1) e2)))
  | S k' => lat ← latitude k' e2 z p; refinement e2 z p lat
  end.

Definition to_degrees (x : Float.float) : exc Float.float :=
  Float.truediv (Float.mul x (Float.lit "180.0")) math_pi.

Definition xyzToGeodetic (x y z : Float.float)
    : exc (Float.float * Float.float * Float.float) :=
  f ← wgs84_f;
  let e2 := eccentricity2 f in
  lon ← to_degrees (math_atan2 y x);
  p ← math_sqrt (Float.add (Float.mul x x) (Float.mul y y));
  lat ← latitude 5 e2 z p;
  N ← radius_N e2 lat;
  c ← math_cos lat;
  q ← Float.truediv p c;
  lat_deg ← to_degrees lat;
  Ok (lat_deg, lon, Float.sub q N).

End GeodeticSpec.

(** ** The interval summary as the specification words it

    Section 4.5: the deltas of consecutive timestamps, of which those in
    the window [0.001, 3600] are retained. *)

Fixpoint delta_list (times : list datetime) : list Z :=
  match times with
  | earlier :: (later :: _) as rest =>
      delta_seconds later earlier :: delta_list rest
  | _ => []
  end.

Definition consecutive_deltas (times : list datetime) : list Float.float :=
  map Float.of_Z (delta_list times).

Definition retained (times : list datetime) : list Float.float :=
  List.filter plausible (consecutive_deltas times).

(** Eleven epochs one second apart, but for one gap of two hours *)
Definition epochs_with_gap : list datetime :=
  [ Datetime 2024 2 29 21 59 56; Datetime 2024 2 29 21 59 57;
    Datetime 2024 2 29 21 59 58; Datetime 2024 2 29 21 59 59;
    Datetime 2024 2 29 22 0 0; Datetime 2024 2 29 22 0 1;
    Datetime 2024 3 1 0 0 1; Datetime 2024 3 1 0 0 2;
    Datetime 2024 3 1 0 0 3; Datetime 2024 3 1 0 0 4;
    Datetime 2024 3 1 0 0 5 ].

(** ** Readings of the scanner used in the statements below *)

(** The v2.x test as the specification words it: longer than 29, a blank
    first, and nothing but digits in columns [1:3) *)
Definition v2_test_as_specified (line : string) : bool :=
  (29 <? String.length line)%nat && first_is_space line
  && Str.all Str.isdigit_char (Str.slice 1 3 line)
  && (String.length (Str.slice 1 3 line) =? 2)%nat.

(** What the code accepts in columns [1:3): two digits, or one digit with
    white space before or after it *)
Definition year_field (c1 c2 : ascii) : bool :=
  Str.isdigit_char c1 && Str.isdigit_char c2
  || Str.isspace c1 && Str.isdigit_char c2
  || Str.isdigit_char c1 && Str.isspace c2.

(** A '>' line whose date and time fields parse *)
Definition v3_parses (line : string) : bool :=
  Str.startswith ">" line
  && match catch_all (v3_epoch_time line) with
     | Some (Some _) => true
     | _ => false
     end.

Definition all_chars : list ascii := map (fun n => ascii_of_nat n) (seq 0 256).

(** On a field of two characters: [strip] and [isdigit] come to
    [year_field], and a field that passes reads as a number from 0 to 99
    whenever [int] accepts it. *)
Definition year_field_check (c1 c2 : ascii) : bool :=
  let s := String c1 (String c2 EmptyString) in
  Bool.eqb (Str.isdigit (Str.strip s)) (year_field c1 c2)
  && (negb (year_field c1 c2)
      || match Num.int_of_str s with
         | Ok yy => (0 <=? yy) && (yy <=? 99)
         | Raise _ => true
         end).

(** A v2.x epoch line with the year 2005 written [ 5] *)
Definition v2_line_year_5 : string :=
  "  5  3  1 12 30 15.0000000  0  4G01G02G03G04".

(** The same line with a letter in column 1 *)
Definition v2_line_year_x5 : string :=
  " X5  3  1 12 30 15.0000000  0  4G01G02G03G04".

(** A v3.x body with one good epoch, one satellite line, and one epoch
    line whose month is 13 *)
Definition v3_with_bad_month : list string :=
  [ header_line "" "END OF HEADER";
    "> 2024 01 01 00 00  0.0000000  0  1";
    "G01  20000000.000";
    "> 2024 13 01 00 00 30.0000000  0  1" ].

(** A body that opens with an epoch line without a time, followed by a
    satellite line *)
Definition v3_without_time : list string :=
  [ header_line "" "END OF HEADER";
    "> no time here";
    "R07  21000000.000" ].

(** A header with a comment that quotes the terminator's label *)
Definition header_with_quoting_comment : list string :=
  [ header_line "     3.04           OBSERVATION DATA    M" "RINEX VERSION / TYPE";
    header_line "the END OF HEADER line follows the comments" "COMMENT";
    header_line ">>> converted by the site logger <<<" "COMMENT";
    header_line "" "END OF HEADER";
    "> 2024 01 01 00 00  0.0000000  0  1";
    "G01  20000000.000" ].

(** ** Further readings used in the statements below *)

(** The last character of a string, if any *)
Fixpoint last_char (s : string) : option ascii :=
  match s with
  | EmptyString => None
  | String c EmptyString => Some c
  | String _ s' => last_char s'
  end.

(** Apart from the continuation key, [d] has the keys the scan starts with *)
Definition initial_keys (d : header_record) : Prop :=
  forall k : string, k <> "_last_obs_system" ->
    (is_Some (d !! k) <-> is_Some (header_init !! k)).

(** The systems of [constellations_obs] are the keys of
    [observation_types] other than "ALL", each a single letter *)
Definition systems_match (d : header_record) : Prop :=
  exists (m : gmap string (list string)) (s : gset string),
    d !! "observation_types" = Some (VDict m)
    /\ d !! "constellations_obs" = Some (VSet s)
    /\ (forall sys : string, sys ∈ s <-> sys <> "ALL" /\ is_Some (m !! sys))
    /\ (forall sys : string, sys ∈ s -> starts_system sys = true).

(** What the scan keeps true of its bookkeeping *)
Definition epoch_bookkeeping (st : scan_state) : Prop :=
  (length (epoch_times st) <= 100)%nat
  /\ first_epoch_time st = head (epoch_times st)
  /\ (last_epoch_time st = None <-> epoch_times st = [])
  /\ Z.of_nat (length (epoch_times st)) <= epoch_count st
  /\ (in_epoch st = false -> st = scan_init)
  /\ (forall sys : string,
        sys ∈ constellations_in_data st -> starts_system sys = true).

(** A line that is neither a v3.x epoch line nor passes the v2.x test *)
Definition no_epoch_line (line : string) : bool :=
  negb (Str.startswith ">" line) && negb (v2_epoch_test line).

(** A line that adds one to [epoch_count] *)
Definition counted_line (line : string) : bool :=
  Str.startswith ">" line
  || v2_epoch_test line
     && match v2_epoch_time line with Ok _ => true | Raise _ => false end.

Definition quotes_terminator (line : string) : bool :=
  Str.contains "END OF HEADER" line.

(** ** ReportFormatter: [get_system_name] and [get_constellation_names] *)

(** [mapping] of [get_system_name] *)
Definition system_names : gmap string string :=
  list_to_map
    [ ("G", "GPS"); ("R", "GLONASS"); ("E", "Galileo"); ("C", "BeiDou");
      ("J", "QZSS"); ("I", "IRNSS/NavIC"); ("S", "SBAS");
      ("ALL", "All Systems"); ("M", "Mixed") ].

(** [mapping.get(code, code)] *)
Definition get_system_name (code : string) : string :=
  default code (system_names !! code).

(** [mapping] of [get_constellation_names] *)
Definition constellation_names : gmap string string :=
  list_to_map
    [ ("G", "GPS"); ("R", "GLONASS"); ("E", "Galileo"); ("C", "BeiDou");
      ("J", "QZSS"); ("I", "IRNSS/NavIC"); ("S", "SBAS");
      ("ALL", "All Systems") ].

(** The order of [str] values: lexicographic on code points *)
Definition str_le (a b : string) : Prop := String.leb a b = true.

#[global] Instance str_le_dec (a b : string) : Decision (str_le a b).
Proof. unfold str_le. apply _. Defined.

(** [sorted(codes)] *)
Definition sorted (codes : list string) : list string :=
  merge_sort str_le codes.

(** [system_codes] is a set or a list; its items arrive in some order. *)
Definition get_constellation_names (system_codes : list string)
    : list string :=
  map (fun code => default code (constellation_names !! code))
      (sorted system_codes).

(** ** The end of [parse_observation_data], for the totality statement *)

Definition counts : list nat := seq 1 100.

(** ** Readings of the "SYS / # / OBS TYPES" branch used in the statements
    below *)

(** [parts = content.split()] *)
Definition line_parts (line : string) : list string :=
  Str.split (line_content line).

(** The line reaches the "SYS / # / OBS TYPES" branch of the chain *)
Definition obs_types_line (line : string) : bool :=
  (60 <=? String.length line)%nat && negb (is_terminator line)
  && match select_field (line_label line) with
     | SysObsTypes => true
     | _ => false
     end.

(** The system that such a line opens: at least two items, a bare letter
    first, then a count that [int] accepts *)
Definition opens_system (line : string) : option string :=
  if obs_types_line line then
    match line_parts line with
    | p0 :: p1 :: _ =>
        if starts_system p0 then
          match Num.int_of_str p1 with
          | Ok _ => Some p0
          | Raise _ => None
          end
        else None
    | _ => None
    end
  else None.

(** The line is a continuation line that the branch can append: at least
    two items, the first no bare letter *)
Definition continuation_line (line : string) : bool :=
  obs_types_line line
  && match line_parts line with
     | p0 :: _ :: _ => negb (starts_system p0)
     | _ => false
     end.

(** Up to the end of the header, [lines] leave the list of [sys] alone:
    no line opens [sys] again, and no continuation line comes before
    another system has been opened ([other]). *)
Fixpoint block_closed (sys : string) (other : bool) (lines : list string)
    : bool :=
  match lines with
  | [] => true
  | line :: rest =>
      if is_terminator line then true
      else
        match opens_system line with
        | Some s => negb (String.eqb s sys) && block_closed sys true rest
        | None =>
            (other || negb (continuation_line line))
            && block_closed sys other rest
        end
  end.

(** A header whose block for GPS holds fourteen types: thirteen on the
    first line, one on the continuation line *)
Definition fourteen_types_header : list string :=
  [ header_line "     3.04           OBSERVATION DATA    M" "RINEX VERSION / TYPE";
    header_line "G   14 C1C L1C D1C S1C C2W L2W D2W S2W C5Q L5Q D5Q S5Q C1L" "SYS / # / OBS TYPES";
    header_line "       L1L" "SYS / # / OBS TYPES";
    header_line "    30.000" "INTERVAL";
    header_line "" "END OF HEADER" ].

(** A header with blocks for GPS, on three lines, and for GLONASS, on two,
    followed by the first lines of the body *)
Definition two_system_header : list string :=
  [ header_line "     3.04           OBSERVATION DATA    M" "RINEX VERSION / TYPE";
    header_line "G   28 C1C L1C D1C S1C C2W L2W D2W S2W C5Q L5Q D5Q S5Q C1L" "SYS / # / OBS TYPES";
    header_line "       L1L D1L S1L C2L L2L D2L S2L C2S L2S D2S S2S C1W L1W" "SYS / # / OBS TYPES";
    header_line "       D1W S1W" "SYS / # / OBS TYPES";
    header_line "R   15 C1C L1C D1C S1C C2C L2C D2C S2C C1P L1P D1P S1P C2P" "SYS / # / OBS TYPES";
    header_line "       L2P D2P" "SYS / # / OBS TYPES";
    header_line "    30.000" "INTERVAL";
    header_line "" "END OF HEADER";
    "> 2024 01 01 00 00  0.0000000  0  1";
    "G01  20000000.000" ].

(** * Properties *)

Local Open Scope list_scope.

(** ** Strings *)

Lemma drop_all (n : nat) (s : string) :
  (String.length s <= n)%nat -> Str.drop n s = "".
Proof.
  revert s; induction n as [|n IH]; intros [|c s] Hlen; simpl in *;
    try reflexivity; try lia.
  apply IH; lia.
Qed.

Lemma lower_char_idem (c : ascii) :
  Str.lower_char (Str.lower_char c) = Str.lower_char c.
Proof. destruct c as [[] [] [] [] [] [] [] []]; reflexivity. Qed.

Lemma lower_idem (s : string) : Str.lower (Str.lower s) = Str.lower s.
Proof.
  induction s as [|c s IH]; simpl; [reflexivity|].
  now rewrite lower_char_idem, IH.
Qed.

(** Every item of [s.split()] is a non-empty string. *)
Lemma split_nonempty (s : string) : Forall (fun t => t <> "") (Str.split s).
Proof.
  induction s as [|c s IH]; simpl; [constructor|].
  destruct (Str.isspace c); [exact IH|].
  destruct s as [|c' s']; [repeat constructor; discriminate|].
  destruct (Str.isspace c').
  - constructor; [discriminate | exact IH].
  - destruct (Str.split (String c' s')) as [|t ts].
    + repeat constructor; discriminate.
    + inversion IH; subst. constructor; [discriminate | assumption].
Qed.

(** [int] of a string raises nothing but [ValueError]. *)
Lemma int_of_str_raises (s : string) (e : exn) :
  Num.int_of_str s = Raise e -> e = ValueError.
Proof.
  unfold Num.int_of_str. destruct (Num.sign _) as [neg s1].
  destruct (Num.digitpart 0 s1) as [[[v n] [|c r]]|]; congruence.
Qed.

(** ** CompressionClassifier *)

(** C3. [detect_file_type] is a total function of the file name alone; it
    gives the same answer for two names that differ only in letter case,
    and on the golden names it answers: site.24o is not compressed;
    site.24d is Hatanaka and needs the decoder; site.crx.gz is
    Hatanaka+gzip and needs the decoder; site.rnx.gz is plain gzip and does
    not; site.Z is compress and needs the decoder. *)
Theorem detect_file_type_case_insensitive_golden :
  (forall f g : string,
      Str.lower f = Str.lower g -> detect_file_type f = detect_file_type g)
  /\ (forall f : string, detect_file_type (Str.lower f) = detect_file_type f)
  /\ detect_file_type "site.24o" = (false, none, false)
  /\ detect_file_type "site.24d" = (true, hatanaka, true)
  /\ detect_file_type "site.crx.gz" = (true, hatanaka_gz, true)
  /\ detect_file_type "site.rnx.gz" = (true, gzip, false)
  /\ detect_file_type "site.Z" = (true, compress, true).
Proof.
  split; [|split].
  - intros f g Heq. unfold detect_file_type. now rewrite Heq.
  - intros f. unfold detect_file_type. now rewrite lower_idem.
  - repeat split; reflexivity.
Qed.

Lemma detect_file_type_upper_witness :
  Str.lower "SITE.24D.GZ" = Str.lower "site.24d.gz"
  /\ detect_file_type "SITE.24D.GZ" = detect_file_type "site.24d.gz".
Proof.
  split; [reflexivity|].
  apply (proj1 detect_file_type_case_insensitive_golden). reflexivity.
Defined.

(** ** HeaderParser *)

Lemma header_init_well_formed : well_formed header_init.
Proof.
  repeat split.
  - exists ∅. reflexivity.
  - exists ∅. reflexivity.
  - intros v Hv. discriminate Hv.
Qed.

Lemma well_formed_set_str (k v : string) (d : header_record) :
  k <> "observation_types" -> k <> "constellations_obs" ->
  well_formed d -> well_formed (set_str k v d).
Proof.
  intros Hk1 Hk2 (Hm & Hs & Hl). unfold set_str. repeat split.
  - now rewrite lookup_insert_ne.
  - now rewrite lookup_insert_ne.
  - intros w. destruct (decide (k = "_last_obs_system")) as [->|Hne].
    + rewrite lookup_insert_eq. intros [= <-]. now exists v.
    + rewrite lookup_insert_ne by assumption. apply Hl.
Qed.

Lemma well_formed_set_types (m : gmap string (list string))
    (d : header_record) :
  well_formed d -> well_formed (<["observation_types" := VDict m]> d).
Proof.
  intros (Hm & Hs & Hl). repeat split.
  - exists m. apply lookup_insert_eq.
  - now rewrite lookup_insert_ne.
  - intros w. rewrite lookup_insert_ne by discriminate. apply Hl.
Qed.

Lemma well_formed_set_systems (s : gset string) (d : header_record) :
  well_formed d -> well_formed (<["constellations_obs" := VSet s]> d).
Proof.
  intros (Hm & Hs & Hl). repeat split.
  - now rewrite lookup_insert_ne.
  - exists s. apply lookup_insert_eq.
  - intros w. rewrite lookup_insert_ne by discriminate. apply Hl.
Qed.

Create HintDb header.

#[local] Hint Resolve well_formed_set_str well_formed_set_types
  well_formed_set_systems : header.

Section ParserFacts.

Variable math_atan2 : Float.float -> Float.float -> Float.float.
Variable math_sin : Float.float -> exc Float.float.
Variable math_cos : Float.float -> exc Float.float.

Abbreviation handle' := (handle math_atan2 math_sin math_cos).
Abbreviation header_step' := (header_step math_atan2 math_sin math_cos).
Abbreviation header_loop' := (header_loop math_atan2 math_sin math_cos).
Abbreviation parse_rinex_header' :=
  (parse_rinex_header math_atan2 math_sin math_cos).

(** No branch of the chain raises, and each keeps [data] well formed. *)
Lemma handle_total (f : field) (content : string) (d : header_record) :
  well_formed d ->
  exists d', handle' f content d = Ok d' /\ well_formed d'.
Proof.
  intros Hwf. pose proof (split_nonempty content) as Hne.
  destruct f; simpl.
  - (* RINEX VERSION *)
    destruct (Str.split content) as [|p0 [|p1 [|p2 rest]]];
      eexists; (split; [reflexivity|]); auto 6 with header.
  - eexists; split; [reflexivity|]; auto with header.
  - eexists; split; [reflexivity|]; auto with header.
  - eexists; split; [reflexivity|]; auto with header.
  - destruct (Str.split content) as [|p0 [|p1 rest]];
      eexists; (split; [reflexivity|]); auto 6 with header.
  - destruct (Str.split content) as [|p0 [|p1 [|p2 rest]]];
      eexists; (split; [reflexivity|]); auto 7 with header.
  - destruct (Str.split content) as [|p0 rest];
      [eexists; split; [reflexivity|]; assumption|].
    destruct (_ && _); eexists; (split; [reflexivity|]); auto 6 with header.
  - destruct (Str.split content) as [|p0 [|p1 [|p2 rest]]];
      eexists; (split; [reflexivity|]); auto 6 with header.
  - (* APPROX POSITION XYZ *)
    destruct (catch_all _) as [[text|]|];
      eexists; (split; [reflexivity|]); auto 6 with header.
  - eexists; split; [reflexivity|]; auto with header.
  - eexists; split; [reflexivity|]; auto with header.
  - eexists; split; [reflexivity|]; auto with header.
  - eexists; split; [reflexivity|]; auto with header.
  - (* SYS / # / OBS TYPES *)
    destruct (Str.split content) as [|p0 [|p1 rest]];
      try (eexists; split; [reflexivity|]; assumption).
    inversion Hne as [|? ? Hp0 _]; subst.
    destruct p0 as [|c0 p0']; [congruence|]. simpl.
    pose proof Hwf as ([m Hm] & [s Hs] & Hl).
    destruct (_ && _).
    + destruct (Num.int_of_str p1) as [n|e] eqn:Hnum;
        [|apply int_of_str_raises in Hnum as ->;
          eexists; split; [reflexivity|]; assumption].
      unfold get_dict, get_set. rewrite Hm. simpl.
      rewrite lookup_insert_ne by discriminate. rewrite Hs. simpl.
      eexists; split; [reflexivity|].
      apply well_formed_set_str; try discriminate.
      now apply well_formed_set_systems, well_formed_set_types.
    + destruct (d !! "_last_obs_system") as [v|] eqn:Hv;
        [|eexists; split; [reflexivity|]; assumption].
      destruct (Hl v eq_refl) as [sys ->]. simpl.
      unfold get_dict. rewrite Hm. simpl.
      destruct (m !! sys);
        (eexists; split; [reflexivity|]);
        [now apply well_formed_set_types | assumption].
  - (* # / TYPES OF OBSERV *)
    destruct (Str.split content) as [|p0 rest];
      [eexists; split; [reflexivity|]; assumption|].
    destruct (Num.int_of_str p0) as [n|e] eqn:Hnum;
      [|apply int_of_str_raises in Hnum as ->;
        eexists; split; [reflexivity|]; assumption].
    pose proof Hwf as ([m Hm] & Hs & Hl).
    unfold get_dict. rewrite Hm. simpl.
    eexists; split; [reflexivity|].
    now apply well_formed_set_types.
  - eexists; split; [reflexivity|]; assumption.
Qed.


Lemma header_step_short (d : header_record) (line : string) :
  (String.length line < 60)%nat -> header_step' d line = Ok (Next d).
Proof.
  intros Hlen. unfold header_step.
  now destruct (Nat.ltb_spec (String.length line) 60); [|lia].
Qed.

Lemma header_step_terminator (d : header_record) (line : string) :
  is_terminator line = true -> header_step' d line = Ok Break.
Proof.
  unfold is_terminator, header_step. intros [Hlen Hend]%andb_true_iff.
  apply Nat.leb_le in Hlen.
  destruct (Nat.ltb_spec (String.length line) 60); [lia|].
  now rewrite Hend.
Qed.

Lemma header_step_field (d : header_record) (line : string) :
  (60 <= String.length line)%nat -> is_terminator line = false ->
  header_step' d line =
    (d' ← handle' (select_field (line_label line)) (line_content line) d;
     Ok (Next d')).
Proof.
  unfold is_terminator, header_step. intros Hlen Hend.
  destruct (Nat.ltb_spec (String.length line) 60); [lia|].
  destruct (Nat.leb_spec 60 (String.length line)); [|lia].
  simpl in Hend. now rewrite Hend.
Qed.

(** A line is skipped, ends the scan, or is handled by one branch. *)
Lemma header_step_cases (d : header_record) (line : string) :
  well_formed d ->
  header_step' d line = Ok Break /\ is_terminator line = true
  \/ exists d', header_step' d line = Ok (Next d') /\ well_formed d'
       /\ is_terminator line = false.
Proof.
  intros Hwf. destruct (is_terminator line) eqn:Hend.
  - left. split; [now apply header_step_terminator | reflexivity].
  - right. destruct (Nat.ltb_spec (String.length line) 60) as [Hlt|Hge].
    + exists d. rewrite header_step_short by assumption. auto.
    + rewrite header_step_field by assumption.
      destruct (handle_total (select_field (line_label line))
                  (line_content line) d Hwf) as (d' & -> & Hwf').
      exists d'. auto.
Qed.

(** The header scan never raises. *)
Lemma header_loop_total (lines : list string) (d : header_record) :
  well_formed d ->
  exists d' rest, header_loop' d lines = Ok (d', rest) /\ well_formed d'.
Proof.
  revert d. induction lines as [|line lines IH]; intros d Hwf; simpl.
  - exists d, []. auto.
  - destruct (header_step_cases d line Hwf) as [[-> _]|(d' & -> & Hwf' & _)];
      simpl.
    + exists d, lines. auto.
    + apply IH, Hwf'.
Qed.

(** C6. A header line of exactly 59 characters is skipped by the scan:
    the record is unchanged and the scan goes on with the next line.  A
    line of exactly 60 characters has the empty label, is not the header
    terminator, and the scan goes on after it as well. *)
Theorem header_line_length_boundary
    (d : header_record) (line : string) (rest : list string) :
  (String.length line = 59%nat ->
     header_step' d line = Ok (Next d)
     /\ header_loop' d (line :: rest) = header_loop' d rest)
  /\ (String.length line = 60%nat ->
        line_label line = ""
        /\ is_terminator line = false
        /\ header_step' d line <> Ok Break
        /\ header_loop' d (line :: rest) = header_loop' d rest).
Proof.
  split; intros Hlen.
  - assert (Hstep : header_step' d line = Ok (Next d))
      by (apply header_step_short; lia).
    split; [exact Hstep|]. simpl. now rewrite Hstep.
  - assert (Hlabel : line_label line = "")
      by (unfold line_label; rewrite drop_all by lia; reflexivity).
    assert (Hend : is_terminator line = false)
      by (unfold is_terminator; rewrite Hlabel; apply andb_false_r).
    assert (Hstep : header_step' d line = Ok (Next d))
      by (rewrite header_step_field by (assumption || lia);
          rewrite Hlabel; reflexivity).
    repeat split; try assumption.
    + rewrite Hstep. discriminate.
    + simpl. now rewrite Hstep.
Qed.

(** C10. The record returned by [parse_rinex_header] never holds the key
    [_last_obs_system]: the scan ends without raising, in some dictionary
    [d], and the result is [d] without that key, every other key being
    looked up as in [d]. *)
Theorem parse_rinex_header_drops_continuation_key (lines : list string) :
  exists (d r : header_record) (rest : list string),
    header_loop' header_init lines = Ok (d, rest)
    /\ parse_rinex_header' lines = Ok r
    /\ r = delete "_last_obs_system" d
    /\ r !! "_last_obs_system" = None
    /\ forall k : string, k <> "_last_obs_system" -> r !! k = d !! k.
Proof.
  destruct (header_loop_total lines header_init header_init_well_formed)
    as (d & rest & Hloop & _).
  exists d, (cleanup d), rest. unfold parse_rinex_header. rewrite Hloop.
  assert (Hclean : cleanup d = delete "_last_obs_system" d).
  { unfold cleanup. destruct (d !! "_last_obs_system") eqn:Hk;
      [reflexivity | symmetry; now apply delete_id]. }
  repeat split; try assumption.
  - rewrite Hclean. apply lookup_delete_eq.
  - intros k Hk. rewrite Hclean. now apply lookup_delete_ne.
Qed.

End ParserFacts.

Lemma header_line_length_boundary_witness :
  header_step atan2_nan domain_error domain_error header_init
    (Str.take 59 (header_line "     3.04           OBSERVATION DATA" ""))
    = Ok (Next header_init)
  /\ is_terminator (header_line "exactly sixty columns, blank label" "") = false.
Proof.
  split.
  - apply (proj1 (header_line_length_boundary atan2_nan domain_error
                    domain_error header_init
                    (Str.take 59 (header_line "     3.04           OBSERVATION DATA" ""))
                    [])).
    reflexivity.
  - apply (proj2 (header_line_length_boundary atan2_nan domain_error
                    domain_error header_init
                    (header_line "exactly sixty columns, blank label" "") [])).
    reflexivity.
Defined.

Lemma obs_types_of_set_str (k v sys : string) (d : header_record) :
  k <> "observation_types" ->
  obs_types_of (set_str k v d) sys = obs_types_of d sys.
Proof.
  intros Hk. unfold obs_types_of, set_str. now rewrite lookup_insert_ne.
Qed.

Lemma obs_types_of_set_types (m : gmap string (list string)) (sys : string)
    (d : header_record) :
  obs_types_of (<["observation_types" := VDict m]> d) sys = m !! sys.
Proof. unfold obs_types_of. now rewrite lookup_insert_eq. Qed.

Lemma obs_types_of_set_systems (s : gset string) (sys : string)
    (d : header_record) :
  obs_types_of (<["constellations_obs" := VSet s]> d) sys = obs_types_of d sys.
Proof. unfold obs_types_of. now rewrite lookup_insert_ne. Qed.

Lemma obs_types_of_cleanup (sys : string) (d : header_record) :
  obs_types_of (cleanup d) sys = obs_types_of d sys.
Proof.
  unfold cleanup, obs_types_of. destruct (d !! "_last_obs_system");
    [now rewrite lookup_delete_ne | reflexivity].
Qed.

(** Settles a goal about keys that a chain of [set_str] does not write. *)
Ltac frame_set_str :=
  split;
  [ rewrite ?obs_types_of_set_str by discriminate; reflexivity
  | unfold set_str; rewrite ?lookup_insert_ne by discriminate; reflexivity ].

Section HeaderFields.

Variable math_atan2 : Float.float -> Float.float -> Float.float.
Variable math_sin : Float.float -> exc Float.float.
Variable math_cos : Float.float -> exc Float.float.

Abbreviation handle_ := (handle math_atan2 math_sin math_cos).
Abbreviation header_step_ := (header_step math_atan2 math_sin math_cos).
Abbreviation header_loop_ := (header_loop math_atan2 math_sin math_cos).
Abbreviation parse_rinex_header_ :=
  (parse_rinex_header math_atan2 math_sin math_cos).
Abbreviation position_fails_ := (position_fails math_atan2 math_sin math_cos).

(** The "APPROX POSITION XYZ" branch stores the content, and leaves the
    rest of the record alone when the position is not derived. *)
Lemma handle_approx_position (content : string) (d : header_record) :
  exists d', handle_ ApproxPosition content d = Ok d'
    /\ d' !! "approx_position" = Some (VStr content)
    /\ (position_fails_ content -> d' = set_str "approx_position" content d).
Proof.
  assert (Hplain : exists d', Ok (set_str "approx_position" content d) = Ok d'
            /\ d' !! "approx_position" = Some (VStr content)
            /\ (position_fails_ content ->
                  d' = set_str "approx_position" content d)).
  { eexists; split; [reflexivity|]; split;
      [apply lookup_insert_eq | reflexivity]. }
  unfold handle, derive_position.
  destruct (mapM Float.of_str (Str.split content)) as [coords|e] eqn:Hco;
    [|exact Hplain].
  destruct coords as [|x [|y [|z [|w coords]]]]; try exact Hplain.
  unfold mbind, exc_bind at 1.
  destruct (xyz_to_latlon math_atan2 math_sin math_cos x y z)
    as [[[lat lon] elev]|e] eqn:Hxyz; [|exact Hplain].
  eexists; split; [reflexivity|]. split.
  - unfold set_str. rewrite lookup_insert_ne by discriminate.
    apply lookup_insert_eq.
  - intros [e He|coords He Hlen|x' y' z' e He Hraise].
    + congruence.
    + rewrite Hco in He. injection He as <-. now contradiction Hlen.
    + rewrite Hco in He. injection He as <- <- <-. congruence.
Qed.

(** C8. An "APPROX POSITION XYZ" line never raises and never stops the
    scan: its content is stored under [approx_position] and the scan goes
    on with the next line.  When an item is no float, the items are not
    three, or the geodetic conversion raises, that is the only change:
    [lat_lon_elev] keeps its value, so the "Not calculated" sentinel
    stays in place. *)
Theorem approx_position_failure_absorbed
    (d : header_record) (line : string) (rest : list string) :
  (60 <= String.length line)%nat ->
  is_terminator line = false ->
  select_field (line_label line) = ApproxPosition ->
  exists d' : header_record,
    header_step_ d line = Ok (Next d')
    /\ header_loop_ d (line :: rest) = header_loop_ d' rest
    /\ d' !! "approx_position" = Some (VStr (line_content line))
    /\ (position_fails_ (line_content line) ->
          d' = <["approx_position" := VStr (line_content line)]> d
          /\ d' !! "lat_lon_elev" = d !! "lat_lon_elev"
          /\ (d !! "lat_lon_elev" = Some (VStr "Not calculated") ->
                d' !! "lat_lon_elev" = Some (VStr "Not calculated"))).
Proof.
  intros Hlen Hend Hfield.
  destruct (handle_approx_position (line_content line) d)
    as (d' & Hhandle & Hstored & Hfail).
  assert (Hstep : header_step_ d line = Ok (Next d'))
    by (rewrite header_step_field, Hfield, Hhandle by assumption; reflexivity).
  exists d'. repeat split; try assumption.
  - simpl. now rewrite Hstep.
  - now apply Hfail.
  - rewrite (Hfail H). unfold set_str. now rewrite lookup_insert_ne.
  - intros Hsentinel. rewrite (Hfail H). unfold set_str.
    now rewrite lookup_insert_ne.
Qed.

(** A line that opens a system: its types are listed under the system
    code and the system becomes the one that continuation lines extend. *)
Lemma handle_new_system (content sys p1 : string) (listed : list string)
    (n : Z) (d : header_record) :
  well_formed d ->
  Str.split content = sys :: p1 :: listed ->
  starts_system sys = true ->
  Num.int_of_str p1 = Ok n ->
  exists d', handle_ SysObsTypes content d = Ok d'
    /\ well_formed d'
    /\ obs_types_of d' sys = Some listed
    /\ d' !! "_last_obs_system" = Some (VStr sys).
Proof.
  intros Hwf Hsplit Hsys Hdecl.
  destruct sys as [|c [|c' sys']]; try discriminate Hsys. simpl in Hsys.
  pose proof Hwf as ([m Hm] & [s Hs] & Hl).
  unfold handle. rewrite Hsplit. simpl. rewrite Hsys, Hdecl. simpl.
  unfold get_dict, get_set. rewrite Hm. simpl.
  rewrite lookup_insert_ne by discriminate. rewrite Hs. simpl.
  eexists; split; [reflexivity|]. repeat split.
  - exists (<[String c "" := listed]> m).
    unfold set_str. rewrite !lookup_insert_ne by discriminate.
    apply lookup_insert_eq.
  - exists ({[String c ""]} ∪ s).
    unfold set_str. rewrite lookup_insert_ne by discriminate.
    apply lookup_insert_eq.
  - intros v. unfold set_str. rewrite lookup_insert_eq. intros [= <-]. eauto.
  - rewrite obs_types_of_set_str, obs_types_of_set_systems,
      obs_types_of_set_types by discriminate.
    apply lookup_insert_eq.
  - apply lookup_insert_eq.
Qed.

(** A line that opens no system extends the list of the last system. *)
Lemma handle_continuation (content sys : string) (parts listed : list string)
    (d : header_record) :
  well_formed d ->
  Str.split content = parts ->
  (2 <= length parts)%nat ->
  (forall t, head parts = Some t -> starts_system t = false) ->
  d !! "_last_obs_system" = Some (VStr sys) ->
  obs_types_of d sys = Some listed ->
  exists d', handle_ SysObsTypes content d = Ok d'
    /\ well_formed d'
    /\ obs_types_of d' sys = Some (listed ++ parts)%list
    /\ d' !! "_last_obs_system" = Some (VStr sys).
Proof.
  intros Hwf Hsplit Hlen Hfirst Hlast Hlisted.
  pose proof (split_nonempty content) as Hne. rewrite Hsplit in *.
  destruct parts as [|t0 [|t1 ts]]; simpl in Hlen; try lia.
  specialize (Hfirst t0 eq_refl).
  inversion Hne as [|? ? Ht0 _]; subst.
  pose proof Hwf as ([m Hm] & Hs & Hl).
  unfold obs_types_of in Hlisted. rewrite Hm in Hlisted.
  assert (Htest : forall c r, t0 = String c r ->
            Str.isalpha_char c && (String.length t0 =? 1)%nat = false).
  { intros c r ->. destruct r; simpl in *; [now rewrite Hfirst|].
    apply andb_false_r. }
  destruct t0 as [|c r]; [congruence|].
  unfold handle. rewrite Hsplit. simpl char0.
  change (Ok c ≫= ?k) with (k c). cbv beta.
  rewrite (Htest c r eq_refl), Hlast. simpl.
  unfold get_dict. rewrite Hm. simpl. rewrite Hlisted.
  eexists; split; [reflexivity|]. repeat split.
  - now apply well_formed_set_types.
  - now apply well_formed_set_types.
  - now apply well_formed_set_types.
  - rewrite obs_types_of_set_types. apply lookup_insert_eq.
  - now rewrite lookup_insert_ne.
Qed.

(** Every other branch leaves the types of a system code alone (the
    v2.x branch writes under "ALL" only). *)
Lemma handle_frame (f : field) (content sys : string) (d d' : header_record) :
  f <> SysObsTypes -> sys <> "ALL" ->
  handle_ f content d = Ok d' ->
  obs_types_of d' sys = obs_types_of d sys
  /\ d' !! "_last_obs_system" = d !! "_last_obs_system".
Proof.
  intros Hf Hsys.
  destruct f; try congruence; unfold handle.
  - destruct (Str.split content) as [|p0 [|p1 [|p2 rest]]];
      intros [= <-]; frame_set_str.
  - intros [= <-]; frame_set_str.
  - intros [= <-]; frame_set_str.
  - intros [= <-]; frame_set_str.
  - destruct (Str.split content) as [|p0 [|p1 rest]];
      intros [= <-]; frame_set_str.
  - destruct (Str.split content) as [|p0 [|p1 [|p2 rest]]];
      intros [= <-]; frame_set_str.
  - destruct (Str.split content) as [|p0 rest]; [intros [= <-]; auto|].
    destruct (_ && _); intros [= <-]; frame_set_str.
  - destruct (Str.split content) as [|p0 [|p1 [|p2 rest]]];
      intros [= <-]; frame_set_str.
  - destruct (catch_all _) as [[text|]|]; intros [= <-]; frame_set_str.
  - intros [= <-]; frame_set_str.
  - intros [= <-]; frame_set_str.
  - intros [= <-]; frame_set_str.
  - intros [= <-]; frame_set_str.
  - destruct (Str.split content) as [|p0 rest]; [intros [= <-]; auto|].
    destruct (Num.int_of_str p0) as [n|e] eqn:Hnum.
    + unfold get_dict, obs_types_of.
      destruct (d !! "observation_types") as [[?|m|?]|] eqn:Hm;
        try discriminate.
      intros [= <-]. rewrite lookup_insert_eq.
      rewrite !lookup_insert_ne by congruence. auto.
    + apply int_of_str_raises in Hnum as ->. intros [= <-]. auto.
  - intros [= <-]. auto.
Qed.

(** Lines before the terminator are all consumed. *)
Lemma header_loop_prefix (pre rest : list string) (d : header_record) :
  well_formed d ->
  Forall (fun l => is_terminator l = false) pre ->
  exists d', well_formed d'
    /\ header_loop_ d (pre ++ rest) = header_loop_ d' rest.
Proof.
  revert d. induction pre as [|line pre IH]; intros d Hwf Hpre.
  - exists d. auto.
  - inversion Hpre as [|? ? Hline Hpre']; subst.
    destruct (header_step_cases math_atan2 math_sin math_cos d line Hwf)
      as [[_ Hend]|(d1 & Hstep & Hwf1 & _)]; [congruence|].
    destruct (IH d1 Hwf1 Hpre') as (d' & Hwf' & Hloop).
    exists d'. split; [assumption|]. simpl. now rewrite Hstep.
Qed.

(** Lines of other kinds do not change what is listed under a system. *)
Lemma header_loop_frame (sys : string) (post : list string)
    (d : header_record) :
  well_formed d -> sys <> "ALL" ->
  Forall (fun l => select_field (line_label l) <> SysObsTypes) post ->
  exists d' rest, header_loop_ d post = Ok (d', rest)
    /\ obs_types_of d' sys = obs_types_of d sys.
Proof.
  intros Hwf Hsys. revert d Hwf.
  induction post as [|line post IH]; intros d Hwf Hpost.
  - exists d, []. auto.
  - inversion Hpost as [|? ? Hline Hpost']; subst. simpl.
    destruct (header_step_cases math_atan2 math_sin math_cos d line Hwf)
      as [[-> _]|(d1 & Hstep & Hwf1 & Hend)].
    + exists d, post. auto.
    + rewrite Hstep. simpl.
      destruct (IH d1 Hwf1 Hpost') as (d' & rest & -> & Htypes).
      exists d', rest. split; [reflexivity|]. rewrite Htypes.
      destruct (Nat.ltb_spec (String.length line) 60) as [Hlt|Hge].
      * rewrite header_step_short in Hstep by assumption. congruence.
      * rewrite header_step_field in Hstep by assumption.
        destruct (handle_ (select_field (line_label line))
                    (line_content line) d) as [d2|e] eqn:Hh;
          [|discriminate].
        injection Hstep as <-.
        now apply (handle_frame _ _ sys _ _ Hline Hsys Hh).
Qed.

End HeaderFields.

Lemma approx_position_failure_absorbed_witness :
  exists d' : header_record,
    header_step atan2_nan domain_error domain_error header_init
      (header_line "  -2694892.655 -4297473.720  3854216.066" "APPROX POSITION XYZ")
      = Ok (Next d')
    /\ d' !! "approx_position" = Some (VStr "-2694892.655 -4297473.720  3854216.066")
    /\ d' !! "lat_lon_elev" = Some (VStr "Not calculated").
Proof.
  destruct (approx_position_failure_absorbed atan2_nan domain_error
              domain_error header_init
              (header_line "  -2694892.655 -4297473.720  3854216.066" "APPROX POSITION XYZ")
              [])
    as (d' & Hstep & _ & Hstored & Hfail).
  - vm_compute. lia.
  - vm_compute. reflexivity.
  - vm_compute. reflexivity.
  - exists d'. split; [exact Hstep|]. split; [exact Hstored|].
    apply Hfail; [|vm_compute; reflexivity].
    apply (conversion_raises _ _ _ _ (Float.lit "-2694892.655")
             (Float.lit "-4297473.720") (Float.lit "3854216.066") ValueError);
      vm_compute; reflexivity.
Defined.

Lemma parse_types_computed (lines : list string) (sys : string)
    (types : list string) :
  catch_all (parse_rinex_header atan2_nan domain_error domain_error lines)
    ≫= (fun r => obs_types_of r sys) = Some types ->
  exists r : header_record,
    parse_rinex_header atan2_nan domain_error domain_error lines = Ok r
    /\ obs_types_of r sys = Some types.
Proof.
  destruct (parse_rinex_header _ _ _ lines) as [r|e]; simpl;
    [eauto | discriminate].
Qed.

(** C4 on a failing input.  The block of [two_line_header], thirteen
    types on the first line and two on the continuation line, gives the
    fifteen entries under G.  In [fourteen_types_header] the first line
    declares fourteen types and lists thirteen, and the continuation line
    lists the one that remains: its first item, "L1L", is no bare single
    letter, yet the line is not appended, and the record lists thirteen
    types under G. *)
Theorem one_item_continuation_is_dropped :
  (exists r : header_record,
     parse_rinex_header atan2_nan domain_error domain_error two_line_header
       = Ok r
     /\ obs_types_of r "G"
        = Some ["C1C"; "L1C"; "D1C"; "S1C"; "C2W"; "L2W"; "D2W"; "S2W";
                "C5Q"; "L5Q"; "D5Q"; "S5Q"; "C1L"; "L1L"; "D1L"])
  /\ nth_error fourteen_types_header 2
       = Some (header_line "       L1L" "SYS / # / OBS TYPES")
  /\ line_parts (header_line "       L1L" "SYS / # / OBS TYPES") = ["L1L"]
  /\ starts_system "L1L" = false
  /\ (exists r : header_record,
        parse_rinex_header atan2_nan domain_error domain_error
          fourteen_types_header = Ok r
        /\ obs_types_of r "G"
           = Some ["C1C"; "L1C"; "D1C"; "S1C"; "C2W"; "L2W"; "D2W"; "S2W";
                   "C5Q"; "L5Q"; "D5Q"; "S5Q"; "C1L"]).
Proof.
  split; [apply parse_types_computed; vm_compute; reflexivity|].
  repeat split; try (vm_compute; reflexivity).
  apply parse_types_computed. vm_compute. reflexivity.
Qed.

(** ** GeodeticConverter *)

Lemma exc_bind_assoc {A B C : Type} (m : exc A) (f : A -> exc B)
    (g : B -> exc C) :
  (m ≫= f) ≫= g = m ≫= (fun a => f a ≫= g).
Proof. now destruct m. Qed.

Lemma exc_bind_ext {A B : Type} (m : exc A) (f g : A -> exc B) :
  (forall a, f a = g a) -> m ≫= f = m ≫= g.
Proof. intros Hfg. destruct m; [apply Hfg | reflexivity]. Qed.

Section GeodeticFacts.

Variable math_atan2 : Float.float -> Float.float -> Float.float.
Variable math_sin : Float.float -> exc Float.float.
Variable math_cos : Float.float -> exc Float.float.

(** A loop of [n + 1] rounds is a loop of [n] rounds and one more. *)
Lemma for_range_succ (n : nat) (body : Float.float -> exc Float.float)
    (lat : Float.float) :
  for_range (S n) body lat = (for_range n body lat ≫= body).
Proof.
  revert lat. induction n as [|n IH]; intros lat.
  - cbn [for_range]. unfold mbind, exc_bind. now destruct (body lat).
  - change (for_range (S (S n)) body lat)
      with (body lat ≫= for_range (S n) body).
    change (for_range (S n) body lat) with (body lat ≫= for_range n body).
    rewrite exc_bind_assoc. apply exc_bind_ext. exact IH.
Qed.

Lemma refine_lat_refinement (e2 z p lat : Float.float) :
  refine_lat math_atan2 math_sin wgs84_a e2 z p lat
  = refinement math_atan2 math_sin e2 z p lat.
Proof.
  unfold refine_lat, refinement, radius_N, prime_vertical.
  destruct (math_sin lat) as [s|e] eqn:Hsin; [|reflexivity].
  cbn [mbind exc_bind].
  destruct (math_sqrt _) as [root|e]; [|reflexivity].
  cbn [mbind exc_bind].
  destruct (Float.truediv wgs84_a root) as [N|e]; [|reflexivity].
  reflexivity.
Qed.

Lemma for_range_latitude (k : nat) (e2 z p : Float.float) :
  for_range k (refine_lat math_atan2 math_sin wgs84_a e2 z p)
    (math_atan2 z (Float.mul p (Float.sub (Float.of_Z 1) e2)))
  = latitude math_atan2 math_sin k e2 z p.
Proof.
  induction k as [|k IH]; [reflexivity|].
  rewrite for_range_succ, IH. cbn [latitude].
  apply exc_bind_ext. intros lat. apply refine_lat_refinement.
Qed.

Lemma prime_vertical_radius_N (e2 lat : Float.float) :
  (s ← math_sin lat; prime_vertical wgs84_a e2 s)
  = radius_N math_sin e2 lat.
Proof. reflexivity. Qed.

(** C9. For every ECEF input, [xyz_to_latlon] computes what section 4.2
    describes: the longitude [atan2(y, x)] in degrees; the latitude that
    starts from [atan2(z, p (1 - e2))], with [p = sqrt(x^2 + y^2)] and
    [e2 = 2f - f^2], and goes through exactly five refinements
    [N = a / sqrt(1 - e2 sin^2(lat))], [lat = atan2(z + e2 N sin(lat), p)],
    whatever the input (no convergence test); and the elevation
    [p / cos(lat) - N] for the [N] of the final latitude. *)
Theorem xyz_to_latlon_five_refinements (x y z : Float.float) :
  xyz_to_latlon math_atan2 math_sin math_cos x y z
  = xyzToGeodetic math_atan2 math_sin math_cos x y z.
Proof.
  unfold xyz_to_latlon, xyzToGeodetic, wgs84_f.
  apply exc_bind_ext. intros f.
  fold (eccentricity2 f). fold wgs84_a.
  apply exc_bind_ext. intros lon.
  apply exc_bind_ext. intros p.
  rewrite for_range_latitude.
  apply exc_bind_ext. intros lat.
  rewrite <- prime_vertical_radius_N, exc_bind_assoc.
  reflexivity.
Qed.

End GeodeticFacts.

(** ** IntervalAnalyzer *)

Lemma index_app_r {A : Type} (pre : list A) (x : A) (rest : list A) :
  index (pre ++ x :: rest) (length pre) = Ok x.
Proof.
  unfold index. rewrite lookup_app_r by lia.
  now replace (length pre - length pre)%nat with O by lia.
Qed.

(** The index loop collects the retained deltas, in order. *)
Lemma collect_intervals_suffix (pre suffix : list datetime)
    (acc : list Float.float) :
  collect_intervals (pre ++ suffix)
    (seq (length pre) (length suffix - 1)) acc
  = Ok (acc ++ retained suffix).
Proof.
  revert pre acc. induction suffix as [|a suffix IH]; intros pre acc.
  - simpl. now rewrite app_nil_r.
  - destruct suffix as [|b suffix].
    + simpl. now rewrite app_nil_r.
    + replace (length (a :: b :: suffix) - 1)%nat
        with (S (length (b :: suffix) - 1)) by (simpl; lia).
      cbn [seq collect_intervals].
      rewrite index_app_r.
      replace (length pre + 1)%nat with (length (pre ++ [a])) at 1
        by (rewrite length_app; simpl; lia).
      replace (pre ++ a :: b :: suffix) with ((pre ++ [a]) ++ b :: suffix)
        by now rewrite <- app_assoc.
      rewrite index_app_r. cbn [mbind exc_bind].
      replace (S (length pre)) with (length (pre ++ [a]))
        by (rewrite length_app; simpl; lia).
      rewrite IH.
      unfold retained, consecutive_deltas.
      change (delta_list (a :: b :: suffix))
        with (delta_seconds b a :: delta_list (b :: suffix)).
      cbn [map List.filter]. fold (total_seconds b a).
      destruct (plausible (total_seconds b a));
        [now rewrite <- app_assoc | reflexivity].
Qed.

Lemma collect_intervals_retained (times : list datetime) :
  collect_intervals times (seq 0 (length times - 1)) [] = Ok (retained times).
Proof. exact (collect_intervals_suffix [] times []). Qed.

Lemma calculate_interval_retained (times : list datetime) :
  calculate_interval times =
    match retained times with
    | first :: others => r ← interval_stats first others; Ok (Some r)
    | [] => Ok None
    end.
Proof.
  unfold calculate_interval.
  destruct (Nat.leb_spec 2 (length times)) as [Hlen|Hlen].
  - now rewrite collect_intervals_retained.
  - destruct times as [|a [|b times]]; simpl in Hlen; try lia; reflexivity.
Qed.

Lemma delta_list_length (times : list datetime) :
  length (delta_list times) = (length times - 1)%nat.
Proof.
  induction times as [|a [|b times] IH]; try reflexivity.
  change (delta_list (a :: b :: times))
    with (delta_seconds b a :: delta_list (b :: times)).
  simpl in *. lia.
Qed.

(** C2. The interval summary is computed from the deltas of consecutive
    timestamps that lie in [0.001, 3600], both ends included, and from
    nothing else: fewer than two timestamps, or no delta in the window,
    give no summary; otherwise the summary is the statistics of the
    retained deltas, each of which is a consecutive delta inside the
    window.  In particular, nine deltas of one second and one of 7200
    seconds, wherever it stands, retain the nine deltas of one second and
    give the consistent summary "1.000". *)
Theorem calculate_interval_plausible_only (times : list datetime) :
  ((length times < 2)%nat -> calculate_interval times = Ok None)
  /\ (retained times = [] -> calculate_interval times = Ok None)
  /\ (forall first others, retained times = first :: others ->
        calculate_interval times
        = (r ← interval_stats first others; Ok (Some r)))
  /\ Forall (fun d => plausible d = true /\ In d (consecutive_deltas times))
       (retained times)
  /\ (plausible (Float.lit "0.001") = true
      /\ plausible (Float.of_Z 3600) = true
      /\ plausible (Float.lit "0.0009") = false
      /\ plausible (Float.of_Z 3601) = false)
  /\ (forall k : nat, (k <= 9)%nat ->
        delta_list times = repeat 1 k ++ 7200 :: repeat 1 (9 - k) ->
        retained times = repeat (Float.of_Z 1) 9
        /\ calculate_interval times = Ok (Some ("1.000", true))).
Proof.
  split; [|split; [|split; [|split; [|split]]]].
  - intros Hlen. unfold calculate_interval.
    now destruct (Nat.leb_spec 2 (length times)); [lia|].
  - intros Hnone. now rewrite calculate_interval_retained, Hnone.
  - intros first others Hsome. now rewrite calculate_interval_retained, Hsome.
  - apply Stdlib.Lists.List.Forall_forall. intros d Hd.
    apply filter_In in Hd. tauto.
  - repeat split; vm_compute; reflexivity.
  - intros k Hk Hdeltas.
    assert (Hretained : retained times = repeat (Float.of_Z 1) 9).
    { unfold retained, consecutive_deltas. rewrite Hdeltas.
      do 10 (destruct k as [|k]; [vm_compute; reflexivity|]). lia. }
    split; [exact Hretained|].
    rewrite calculate_interval_retained, Hretained.
    vm_compute. reflexivity.
Qed.

Lemma calculate_interval_plausible_only_witness :
  delta_list epochs_with_gap = [1; 1; 1; 1; 1; 7200; 1; 1; 1; 1]
  /\ calculate_interval epochs_with_gap = Ok (Some ("1.000", true)).
Proof.
  split; [vm_compute; reflexivity|].
  apply (proj2 (proj2 (proj2 (proj2 (proj2
           (calculate_interval_plausible_only epochs_with_gap))))) 5%nat).
  - lia.
  - vm_compute. reflexivity.
Defined.

(** ** ObservationScanner *)

Lemma all_chars_complete (c : ascii) : In c all_chars.
Proof.
  unfold all_chars. apply in_map_iff. exists (nat_of_ascii c). split.
  - apply ascii_nat_embedding.
  - apply in_seq. pose proof (nat_ascii_bounded c). lia.
Qed.

Lemma year_field_check_all :
  forallb (fun c1 => forallb (year_field_check c1) all_chars) all_chars = true.
Proof. vm_compute. reflexivity. Qed.

Lemma year_field_checked (c1 c2 : ascii) : year_field_check c1 c2 = true.
Proof.
  pose proof year_field_check_all as Hall.
  rewrite forallb_forall in Hall.
  specialize (Hall c1 (all_chars_complete c1)).
  rewrite forallb_forall in Hall. apply Hall, all_chars_complete.
Qed.

Lemma slice_two_chars (line : string) :
  (29 < String.length line)%nat ->
  exists c1 c2, Str.slice 1 3 line = String c1 (String c2 EmptyString).
Proof.
  intros Hlen. destruct line as [|c0 [|c1 [|c2 line]]]; simpl in Hlen; try lia.
  now exists c1, c2.
Qed.

Lemma v2_epoch_test_not_v3 (line : string) :
  v2_epoch_test line = true -> Str.startswith ">" line = false.
Proof.
  unfold v2_epoch_test. intros [[_ Hsp]%andb_true_iff _]%andb_true_iff.
  destruct line as [|c line]; [discriminate|]. simpl in *.
  apply Ascii.eqb_eq in Hsp as ->. reflexivity.
Qed.

Lemma mk_datetime_fields (y mo d h mi s : Z) (t : datetime) :
  mk_datetime y mo d h mi s = Ok t -> t = Datetime y mo d h mi s.
Proof. unfold mk_datetime. destruct (_ && _); congruence. Qed.

(** C7, as amended. A body line passes the v2.x test exactly when it is
    longer than 29 characters, starts with a blank, and columns [1:3)
    hold two digits or one digit with white space before or after it.
    When the fields of such a line parse, the scan counts the epoch and
    reads its timestamp at the fixed columns [1:3), [4:6), [7:9), [10:12),
    [13:15) and [16:26), the two-digit year [yy] lying between 0 and 99
    and standing for [1900 + yy] from 80 on and for [2000 + yy] below;
    when they do not parse, the line changes nothing.  A line that fails
    the test and does not start with '>' is no epoch header to the scan:
    the epoch flag, the count, the stored times and the first and last
    timestamps stay as they were.  A line that starts with '>' fails the
    test and is handled by the v3.x branch alone. *)
Theorem v2_epoch_recognised_and_read (st : scan_state) (line : string) :
  (v2_epoch_test line = true <->
     (29 < String.length line)%nat /\ first_is_space line = true
     /\ exists c1 c2, Str.slice 1 3 line = String c1 (String c2 EmptyString)
          /\ year_field c1 c2 = true)
  /\ (v2_epoch_test line = true ->
        (forall t, v2_epoch_time line = Ok t ->
           body_step st line = set_in_epoch (note_epoch t (count_epoch st))
           /\ exists yy sec,
                Num.int_of_str (Str.slice 1 3 line) = Ok yy
                /\ 0 <= yy <= 99
                /\ dt_year t = (if 80 <=? yy then yy + 1900 else yy + 2000)
                /\ Num.int_of_str (Str.slice 4 6 line) = Ok (dt_month t)
                /\ Num.int_of_str (Str.slice 7 9 line) = Ok (dt_day t)
                /\ Num.int_of_str (Str.slice 10 12 line) = Ok (dt_hour t)
                /\ Num.int_of_str (Str.slice 13 15 line) = Ok (dt_minute t)
                /\ Float.of_str (Str.slice 16 26 line) = Ok sec
                /\ Float.to_int sec = Ok (dt_second t))
        /\ (forall e, v2_epoch_time line = Raise e -> body_step st line = st))
  /\ (v2_epoch_test line = false -> Str.startswith ">" line = false ->
        in_epoch (body_step st line) = in_epoch st
        /\ epoch_count (body_step st line) = epoch_count st
        /\ epoch_times (body_step st line) = epoch_times st
        /\ first_epoch_time (body_step st line) = first_epoch_time st
        /\ last_epoch_time (body_step st line) = last_epoch_time st)
  /\ (Str.startswith ">" line = true ->
        v2_epoch_test line = false
        /\ body_step st line
           = match catch_all (v3_epoch_time line) with
             | Some (Some epoch_time) =>
                 note_epoch epoch_time (count_epoch (set_in_epoch st))
             | Some None | None => count_epoch (set_in_epoch st)
             end).
Proof.
  assert (Hiff : v2_epoch_test line = true <->
     (29 < String.length line)%nat /\ first_is_space line = true
     /\ exists c1 c2, Str.slice 1 3 line = String c1 (String c2 EmptyString)
          /\ year_field c1 c2 = true).
  { unfold v2_epoch_test. rewrite !andb_true_iff, Nat.ltb_lt. split.
    - intros [[Hlen Hsp] Hdig]. repeat split; try assumption.
      destruct (slice_two_chars line Hlen) as (c1 & c2 & Hslice).
      exists c1, c2. split; [assumption|].
      pose proof (year_field_checked c1 c2) as Hchk.
      unfold year_field_check in Hchk.
      apply andb_true_iff in Hchk as [Heq _]. apply eqb_prop in Heq.
      now rewrite <- Heq, <- Hslice.
    - intros (Hlen & Hsp & c1 & c2 & Hslice & Hyear).
      repeat split; try assumption.
      pose proof (year_field_checked c1 c2) as Hchk.
      unfold year_field_check in Hchk.
      apply andb_true_iff in Hchk as [Heq _]. apply eqb_prop in Heq.
      now rewrite Hslice, Heq. }
  split; [exact Hiff|]. split; [intros Htest|split].
  2: { intros Htest Hv3. unfold body_step. rewrite Hv3, Htest.
       destruct (in_epoch st && _); [|repeat split].
       destruct (Str.strip (Str.slice 0 3 line)) as [|c sat]; [repeat split|].
       destruct (_ && _); repeat split. }
  2: { intros Hv3. split.
       - destruct (v2_epoch_test line) eqn:Htest; [|reflexivity].
         apply v2_epoch_test_not_v3 in Htest. congruence.
       - unfold body_step. rewrite Hv3. reflexivity. }
  assert (Hstep : body_step st line =
            match catch_all (v2_epoch_time line) with
            | Some epoch_time =>
                set_in_epoch (note_epoch epoch_time (count_epoch st))
            | None => st
            end).
  { unfold body_step.
    now rewrite (v2_epoch_test_not_v3 line Htest), Htest. }
  split.
  - intros t Ht. split; [now rewrite Hstep, Ht|].
    apply Hiff in Htest as (Hlen & _ & c1 & c2 & Hslice & Hyear).
    unfold v2_epoch_time in Ht.
    destruct (Num.int_of_str (Str.slice 1 3 line)) as [yy|] eqn:Hyy;
      [|discriminate].
    destruct (Num.int_of_str (Str.slice 4 6 line)) as [mo|]; [|discriminate].
    destruct (Num.int_of_str (Str.slice 7 9 line)) as [dd|]; [|discriminate].
    destruct (Num.int_of_str (Str.slice 10 12 line)) as [hh|]; [|discriminate].
    destruct (Num.int_of_str (Str.slice 13 15 line)) as [mi|]; [|discriminate].
    destruct (Float.of_str (Str.slice 16 26 line)) as [sec|]; [|discriminate].
    cbn [mbind exc_bind] in Ht.
    destruct (Float.to_int sec) as [isec|] eqn:Hsec; [|discriminate].
    cbn [mbind exc_bind] in Ht.
    apply mk_datetime_fields in Ht as ->.
    exists yy, sec. cbn [dt_year dt_month dt_day dt_hour dt_minute dt_second].
    repeat split; try reflexivity; try assumption.
    + pose proof (year_field_checked c1 c2) as Hchk.
      unfold year_field_check in Hchk.
      rewrite Hyear, <- Hslice, Hyy in Hchk. simpl in Hchk.
      apply andb_true_iff in Hchk as [_ Hchk]. lia.
    + pose proof (year_field_checked c1 c2) as Hchk.
      unfold year_field_check in Hchk.
      rewrite Hyear, <- Hslice, Hyy in Hchk. simpl in Hchk.
      apply andb_true_iff in Hchk as [_ Hchk]. lia.
  - intros e He. now rewrite Hstep, He.
Qed.

Lemma v2_epoch_recognised_and_read_witness :
  v2_epoch_test v2_line_year_5 = true
  /\ body_step scan_init v2_line_year_5
     = set_in_epoch (note_epoch (Datetime 2005 3 1 12 30 15)
                       (count_epoch scan_init))
  /\ v2_epoch_test v2_line_year_x5 = false
  /\ epoch_count (body_step scan_init v2_line_year_x5) = epoch_count scan_init.
Proof.
  split; [vm_compute; reflexivity|]. split; [|split].
  - apply (proj1 (proj1 (proj2 (v2_epoch_recognised_and_read scan_init
                                  v2_line_year_5))
                    ltac:(vm_compute; reflexivity))).
    vm_compute. reflexivity.
  - vm_compute. reflexivity.
  - apply (proj1 (proj2 (proj2 (v2_epoch_recognised_and_read scan_init
                                  v2_line_year_x5)))
             ltac:(vm_compute; reflexivity) ltac:(vm_compute; reflexivity)).
Defined.

(** C7 as stated fails: a line whose columns [1:3) hold a blank and a
    digit is taken for a v2.x epoch header, and read as the year 2005. *)
Lemma v2_epoch_test_accepts_blank_padded_year :
  v2_epoch_test v2_line_year_5 = true
  /\ v2_test_as_specified v2_line_year_5 = false
  /\ Str.slice 1 3 v2_line_year_5 = " 5"
  /\ v2_epoch_time v2_line_year_5 = Ok (Datetime 2005 3 1 12 30 15)
  /\ epoch_count (body_step scan_init v2_line_year_5) = 1.
Proof. repeat split; vm_compute; reflexivity. Qed.

(** C1 on a failing input.  The body [v3_with_bad_month] has two '>'
    lines, of which one parses; the reported epoch count is 2.  In
    [v3_without_time] no '>' line parses, and yet the scan ends in the
    in-epoch state, with one epoch counted and the constellation of the
    satellite line that follows recorded. *)
Theorem malformed_v3_epoch_is_counted :
  (exists r, parse_observation_data v3_with_bad_month = Ok r
     /\ or_num_epochs r = 2)
  /\ length (List.filter v3_parses (body_lines v3_with_bad_month)) = 1%nat
  /\ List.filter v3_parses (body_lines v3_without_time) = []
  /\ in_epoch (scan_body (body_lines v3_without_time)) = true
  /\ epoch_count (scan_body (body_lines v3_without_time)) = 1
  /\ elements (constellations_in_data (scan_body (body_lines v3_without_time)))
     = ["R"].
Proof.
  split; [eexists; split; vm_compute; reflexivity|].
  repeat split; vm_compute; reflexivity.
Qed.

(** C5 on a failing input.  In [header_with_quoting_comment] the header
    scan stops at the fourth line, the terminator, and leaves the two body
    lines; the body scan starts after the second line, the comment that
    quotes "END OF HEADER", examines the third line and the terminator as
    well, and counts the third line, a comment that begins with '>', as
    an epoch. *)
Theorem body_scan_starts_before_header_end :
  (exists d, header_loop atan2_nan domain_error domain_error header_init
               header_with_quoting_comment
             = Ok (d, drop 4 header_with_quoting_comment))
  /\ body_lines header_with_quoting_comment
     = drop 2 header_with_quoting_comment
  /\ length (List.filter (Str.startswith ">")
               (drop 4 header_with_quoting_comment)) = 1%nat
  /\ (exists r, parse_observation_data header_with_quoting_comment = Ok r
        /\ or_num_epochs r = 2).
Proof.
  split; [|split; [|split]].
  - destruct (header_loop_total atan2_nan domain_error domain_error
                header_with_quoting_comment header_init
                header_init_well_formed) as (d & rest & Hloop & _).
    exists d. rewrite Hloop. f_equal. f_equal.
    assert (Hrest : snd <$> catch_all
              (header_loop atan2_nan domain_error domain_error header_init
                 header_with_quoting_comment)
            = Some (drop 4 header_with_quoting_comment))
      by (vm_compute; reflexivity).
    rewrite Hloop in Hrest. simpl in Hrest. injection Hrest as ->.
    reflexivity.
  - vm_compute. reflexivity.
  - vm_compute. reflexivity.
  - eexists; split; vm_compute; reflexivity.
Qed.

(** * Further properties of the code *)

(** ** [detect_file_type] *)

(** X1. The three components of the answer of [detect_file_type] always
    agree: the file counts as compressed exactly when the kind is not
    'none', and the external decoder is needed exactly when the kind is
    neither 'none' nor 'gzip'. *)
Theorem detect_file_type_coherent (filepath : string) :
  match detect_file_type filepath with
  | (is_compressed, kind, needs_hatanaka) =>
      (is_compressed = true <-> kind <> none)
      /\ (needs_hatanaka = true <-> kind <> none /\ kind <> gzip)
  end.
Proof.
  unfold detect_file_type.
  repeat match goal with
         | |- context [if ?b then _ else _] => destruct b
         end;
    repeat split; intros; try discriminate; try reflexivity;
    intuition congruence.
Qed.

Lemma last_char_cons (c : ascii) (s : string) :
  s <> "" -> last_char (String c s) = last_char s.
Proof. destruct s; [congruence | reflexivity]. Qed.

Lemma last_char_drop (n : nat) (s : string) :
  (n < String.length s)%nat -> last_char (Str.drop n s) = last_char s.
Proof.
  revert s. induction n as [|n IH]; intros [|c s] Hlen; simpl in Hlen;
    try lia; [reflexivity|].
  cbn [Str.drop]. rewrite IH by lia.
  symmetry. apply last_char_cons. destruct s; [simpl in Hlen; lia | discriminate].
Qed.

Lemma endswith_last_char (p s : string) :
  p <> "" -> Str.endswith p s = true -> last_char s = last_char p.
Proof.
  intros Hp. unfold Str.endswith. intros [Hlen Heq]%andb_true_iff.
  apply Nat.leb_le in Hlen. apply String.eqb_eq in Heq.
  transitivity (last_char (Str.drop (String.length s - String.length p) s));
    [|now rewrite Heq].
  symmetry. apply last_char_drop.
  destruct p; [congruence|]. simpl in *. lia.
Qed.

Lemma search_NNd_last_char (s : string) :
  search_NNd "" s = true ->
  last_char s = Some "d"%char \/ last_char s = Some "010"%char.
Proof.
  induction s as [|c s IH]; [discriminate|].
  cbn [search_NNd]. intros [Hhere|Hlater]%orb_true_iff.
  - destruct s as [|d1 [|d2 [|d rest]]]; try discriminate.
    cbn [match_NNd_here Str.startswith Str.drop String.length] in Hhere.
    rewrite !andb_true_iff in Hhere.
    destruct Hhere as [[[[_ _] Hd] _] Hend].
    apply Ascii.eqb_eq in Hd as ->.
    destruct rest as [|n [|? ?]]; try discriminate; [now left|].
    simpl in Hend. apply Ascii.eqb_eq in Hend as ->. now right.
  - destruct s as [|c' s']; [discriminate|].
    rewrite last_char_cons by discriminate. now apply IH.
Qed.

(** X2. A name that ends in ".gz", in any letter case, is always settled
    by the gzip rule: its kind is 'gzip' or 'hatanaka+gz', never the plain
    'hatanaka' of the first rule, and plain 'gzip' never needs the
    external decoder. *)
Theorem detect_file_type_gz_suffix (filepath : string) :
  Str.endswith ".gz" (Str.lower filepath) = true ->
  detect_file_type filepath = (true, gzip, false)
  \/ detect_file_type filepath = (true, hatanaka_gz, true).
Proof.
  intros Hgz. unfold detect_file_type.
  pose proof (endswith_last_char ".gz" _ ltac:(discriminate) Hgz) as Hlast.
  simpl in Hlast.
  destruct (Str.endswith ".crx" (Str.lower filepath)) eqn:Hcrx.
  { apply endswith_last_char in Hcrx; [|discriminate].
    simpl in Hcrx. congruence. }
  destruct (search_NNd "" (Str.lower filepath)) eqn:Hre.
  { apply search_NNd_last_char in Hre as [Hre|Hre]; congruence. }
  rewrite Hgz. simpl. destruct (_ || _); auto.
Qed.

Lemma detect_file_type_gz_suffix_witness :
  detect_file_type "ABMF00GLP_R_20240010000_01D_30S_MO.RNX.GZ" = (true, gzip, false)
  \/ detect_file_type "ABMF00GLP_R_20240010000_01D_30S_MO.RNX.GZ"
     = (true, hatanaka_gz, true).
Proof.
  apply (detect_file_type_gz_suffix "ABMF00GLP_R_20240010000_01D_30S_MO.RNX.GZ").
  reflexivity.
Defined.

(** ** [parse_rinex_header] *)

Lemma initial_keys_set_str (k v : string) (d : header_record) :
  is_Some (header_init !! k) \/ k = "_last_obs_system" ->
  initial_keys d -> initial_keys (set_str k v d).
Proof.
  intros Hk Hd k' Hk'. unfold set_str.
  destruct (decide (k = k')) as [->|Hne].
  - rewrite lookup_insert_eq. destruct Hk as [Hk|Hk]; [|congruence].
    split; [intros _; exact Hk | intros _; eauto].
  - rewrite lookup_insert_ne by assumption. now apply Hd.
Qed.

Lemma initial_keys_insert (k : string) (v : pyval) (d : header_record) :
  is_Some (header_init !! k) ->
  initial_keys d -> initial_keys (<[k := v]> d).
Proof.
  intros Hk Hd k' Hk'.
  destruct (decide (k = k')) as [->|Hne].
  - rewrite lookup_insert_eq. split; [intros _; exact Hk | intros _; eauto].
  - rewrite lookup_insert_ne by assumption. now apply Hd.
Qed.

(** Settles [initial_keys] of a record built by inserting at initial keys. *)
Ltac initial_keys_solve :=
  repeat first
    [ assumption
    | apply initial_keys_set_str; [vm_compute; eauto|]
    | apply initial_keys_insert; [vm_compute; eauto|] ].

Lemma systems_match_set_str (k v : string) (d : header_record) :
  k <> "observation_types" -> k <> "constellations_obs" ->
  systems_match d -> systems_match (set_str k v d).
Proof.
  intros Hk1 Hk2 (m & s & Hm & Hs & Hiff & Hletter).
  exists m, s. unfold set_str. rewrite !lookup_insert_ne by assumption. auto.
Qed.

(** Settles [systems_match] of a record built by [set_str] at other keys. *)
Ltac systems_match_solve :=
  repeat first
    [ assumption
    | apply systems_match_set_str; [discriminate | discriminate |] ].

Lemma starts_system_not_all (sys : string) :
  starts_system sys = true -> sys <> "ALL".
Proof. intros Hsys ->. discriminate Hsys. Qed.

Lemma list_slice_from_1 {A : Type} (x : A) (l : list A) (n : Z) :
  0 <= n -> list_slice 1 (1 + n) (x :: l) = take (Z.to_nat n) l.
Proof.
  intros Hn. unfold list_slice, clamp_index. cbn [length].
  destruct (Z.ltb_spec 1 0) as [|_]; [lia|].
  destruct (Z.ltb_spec (1 + n) 0) as [|_]; [lia|].
  replace (Z.to_nat (Z.min 1 (Z.of_nat (S (length l))))) with 1%nat by lia.
  change (drop 1 (x :: l)) with l.
  destruct (Z.le_gt_cases n (Z.of_nat (length l))) as [Hle|Hgt].
  - f_equal. lia.
  - rewrite !take_ge by lia. reflexivity.
Qed.

Section HeaderMore.

Variable math_atan2 : Float.float -> Float.float -> Float.float.
Variable math_sin : Float.float -> exc Float.float.
Variable math_cos : Float.float -> exc Float.float.

Abbreviation handle_m := (handle math_atan2 math_sin math_cos).
Abbreviation header_step_m := (header_step math_atan2 math_sin math_cos).
Abbreviation header_loop_m := (header_loop math_atan2 math_sin math_cos).
Abbreviation parse_rinex_header_m :=
  (parse_rinex_header math_atan2 math_sin math_cos).

(** The record after the lines before the terminator does not depend on
    what follows them. *)
Lemma header_loop_prefix_any (pre : list string) (d : header_record) :
  well_formed d ->
  Forall (fun l => is_terminator l = false) pre ->
  exists d', well_formed d'
    /\ forall rest, header_loop_m d (pre ++ rest) = header_loop_m d' rest.
Proof.
  revert d. induction pre as [|line pre IH]; intros d Hwf Hpre.
  - exists d. auto.
  - inversion Hpre as [|? ? Hline Hpre']; subst.
    destruct (header_step_cases math_atan2 math_sin math_cos d line Hwf)
      as [[_ Hend]|(d1 & Hstep & Hwf1 & _)]; [congruence|].
    destruct (IH d1 Hwf1 Hpre') as (d' & Hwf' & Hloop).
    exists d'. split; [assumption|]. intros rest.
    change ((line :: pre) ++ rest) with (line :: (pre ++ rest)).
    cbn [header_loop]. rewrite Hstep. apply Hloop.
Qed.

(** X3. Nothing from the header terminator on is read by
    [parse_rinex_header]: a file whose first terminator line is [term]
    gives the record of the lines before it, whatever follows. *)
Theorem parse_rinex_header_stops_at_terminator
    (pre post : list string) (term : string) :
  Forall (fun l => is_terminator l = false) pre ->
  is_terminator term = true ->
  parse_rinex_header_m (pre ++ term :: post) = parse_rinex_header_m pre.
Proof.
  intros Hpre Hterm.
  destruct (header_loop_prefix_any pre header_init header_init_well_formed
              Hpre) as (d & _ & Hloop).
  unfold parse_rinex_header.
  rewrite (Hloop (term :: post)).
  rewrite <- (app_nil_r pre), (Hloop []).
  cbn [header_loop].
  now rewrite (header_step_terminator _ _ _ d term Hterm).
Qed.

Lemma handle_initial_keys (f : field) (content : string)
    (d d' : header_record) :
  initial_keys d -> handle_m f content d = Ok d' -> initial_keys d'.
Proof.
  intros Hd. destruct f; unfold handle.
  - destruct (Str.split content) as [|p0 [|p1 [|p2 rest]]];
      intros [= <-]; initial_keys_solve.
  - intros [= <-]; initial_keys_solve.
  - intros [= <-]; initial_keys_solve.
  - intros [= <-]; initial_keys_solve.
  - destruct (Str.split content) as [|p0 [|p1 rest]];
      intros [= <-]; initial_keys_solve.
  - destruct (Str.split content) as [|p0 [|p1 [|p2 rest]]];
      intros [= <-]; initial_keys_solve.
  - destruct (Str.split content) as [|p0 rest];
      [intros [= <-]; assumption|].
    destruct (_ && _); intros [= <-]; initial_keys_solve.
  - destruct (Str.split content) as [|p0 [|p1 [|p2 rest]]];
      intros [= <-]; initial_keys_solve.
  - destruct (catch_all _) as [[text|]|]; intros [= <-]; initial_keys_solve.
  - intros [= <-]; initial_keys_solve.
  - intros [= <-]; initial_keys_solve.
  - intros [= <-]; initial_keys_solve.
  - intros [= <-]; initial_keys_solve.
  - destruct (Str.split content) as [|p0 [|p1 rest]];
      try (intros [= <-]; assumption).
    destruct (char0 p0) as [c0|e]; [|discriminate]. cbn [mbind exc_bind].
    destruct (_ && _).
    + destruct (Num.int_of_str p1) as [n|e] eqn:Hnum.
      * destruct (get_dict d "observation_types") as [m|]; [|discriminate].
        cbn [mbind exc_bind].
        destruct (get_set _ "constellations_obs") as [s|]; [|discriminate].
        cbn [mbind exc_bind]. intros [= <-]. initial_keys_solve.
      * apply int_of_str_raises in Hnum as ->. intros [= <-]. assumption.
    + destruct (d !! "_last_obs_system") as [v|];
        [|intros [= <-]; assumption].
      destruct (as_str v) as [sys|]; [|discriminate]. cbn [mbind exc_bind].
      destruct (get_dict d "observation_types") as [m|]; [|discriminate].
      cbn [mbind exc_bind].
      destruct (m !! sys); intros [= <-]; initial_keys_solve.
  - destruct (Str.split content) as [|p0 rest];
      [intros [= <-]; assumption|].
    destruct (Num.int_of_str p0) as [n|e] eqn:Hnum.
    + destruct (get_dict d "observation_types") as [m|]; [|discriminate].
      cbn [mbind exc_bind]. intros [= <-]. initial_keys_solve.
    + apply int_of_str_raises in Hnum as ->. intros [= <-]. assumption.
  - intros [= <-]. assumption.
Qed.

Lemma handle_systems_match (f : field) (content : string)
    (d d' : header_record) :
  systems_match d -> handle_m f content d = Ok d' -> systems_match d'.
Proof.
  intros Hd. pose proof (split_nonempty content) as Hne.
  destruct f; unfold handle.
  - destruct (Str.split content) as [|p0 [|p1 [|p2 rest]]];
      intros [= <-]; systems_match_solve.
  - intros [= <-]; systems_match_solve.
  - intros [= <-]; systems_match_solve.
  - intros [= <-]; systems_match_solve.
  - destruct (Str.split content) as [|p0 [|p1 rest]];
      intros [= <-]; systems_match_solve.
  - destruct (Str.split content) as [|p0 [|p1 [|p2 rest]]];
      intros [= <-]; systems_match_solve.
  - destruct (Str.split content) as [|p0 rest];
      [intros [= <-]; assumption|].
    destruct (_ && _); intros [= <-]; systems_match_solve.
  - destruct (Str.split content) as [|p0 [|p1 [|p2 rest]]];
      intros [= <-]; systems_match_solve.
  - destruct (catch_all _) as [[text|]|]; intros [= <-]; systems_match_solve.
  - intros [= <-]; systems_match_solve.
  - intros [= <-]; systems_match_solve.
  - intros [= <-]; systems_match_solve.
  - intros [= <-]; systems_match_solve.
  - destruct (Str.split content) as [|p0 [|p1 rest]];
      try (intros [= <-]; assumption).
    destruct p0 as [|c0 p0']; [discriminate|].
    cbn [char0 mbind exc_bind].
    destruct Hd as (m & s & Hm & Hs & Hiff & Hletter).
    destruct (Str.isalpha_char c0 && (String.length (String c0 p0') =? 1)%nat)
      eqn:Htest.
    + assert (Hsys : starts_system (String c0 p0') = true).
      { apply andb_true_iff in Htest as [Halpha Hlen].
        destruct p0'; [exact Halpha | discriminate Hlen]. }
      destruct (Num.int_of_str p1) as [n|e] eqn:Hnum.
      * unfold get_dict, get_set. rewrite Hm. cbn [mbind exc_bind].
        rewrite lookup_insert_ne by discriminate. rewrite Hs.
        cbn [mbind exc_bind]. intros [= <-].
        apply systems_match_set_str; try discriminate.
        exists (<[String c0 p0' := rest]> m), ({[String c0 p0']} ∪ s).
        split; [rewrite lookup_insert_ne by discriminate;
                apply lookup_insert_eq|].
        split; [apply lookup_insert_eq|]. split.
        -- intros sys. rewrite elem_of_union, elem_of_singleton, Hiff.
           destruct (decide (sys = String c0 p0')) as [->|Hne'].
           ++ rewrite lookup_insert_eq.
              pose proof (starts_system_not_all _ Hsys). intuition eauto.
           ++ rewrite lookup_insert_ne by congruence. intuition congruence.
        -- intros sys [->%elem_of_singleton|Hin]%elem_of_union;
             [exact Hsys | now apply Hletter].
      * apply int_of_str_raises in Hnum as ->. intros [= <-].
        exists m, s. auto.
    + destruct (d !! "_last_obs_system") as [v|];
        [|intros [= <-]; exists m, s; auto].
      destruct (as_str v) as [sys|]; [|discriminate]. cbn [mbind exc_bind].
      unfold get_dict. rewrite Hm. cbn [mbind exc_bind].
      destruct (m !! sys) as [listed|] eqn:Hsys;
        intros [= <-]; [|exists m, s; auto].
      exists (<[sys := listed ++ String c0 p0' :: p1 :: rest]> m), s.
      split; [apply lookup_insert_eq|].
      split; [now rewrite lookup_insert_ne|]. split; [|exact Hletter].
      intros sys'. rewrite Hiff.
      destruct (decide (sys' = sys)) as [->|Hne'].
      * rewrite lookup_insert_eq, Hsys. intuition eauto.
      * now rewrite lookup_insert_ne by congruence.
  - destruct (Str.split content) as [|p0 rest];
      [intros [= <-]; assumption|].
    destruct (Num.int_of_str p0) as [n|e] eqn:Hnum.
    + destruct Hd as (m & s & Hm & Hs & Hiff & Hletter).
      unfold get_dict. rewrite Hm. cbn [mbind exc_bind]. intros [= <-].
      exists (<["ALL" := list_slice 1 (1 + n) (p0 :: rest)]> m), s.
      split; [apply lookup_insert_eq|].
      split; [now rewrite lookup_insert_ne|]. split; [|exact Hletter].
      intros sys. rewrite Hiff.
      destruct (decide (sys = "ALL")) as [->|Hne'].
      * intuition congruence.
      * now rewrite lookup_insert_ne by congruence.
    + apply int_of_str_raises in Hnum as ->. intros [= <-]. assumption.
  - intros [= <-]. assumption.
Qed.

(** An invariant of the steps holds of the record the loop ends with. *)
Lemma header_loop_invariant (P : header_record -> Prop) :
  (forall f content d d', P d -> handle_m f content d = Ok d' -> P d') ->
  forall (lines : list string) (d d' : header_record) (rest : list string),
    P d -> header_loop_m d lines = Ok (d', rest) -> P d'.
Proof.
  intros Hstep lines. induction lines as [|line lines IH];
    intros d d' rest Hd; cbn [header_loop].
  - intros [= <- _]. exact Hd.
  - unfold header_step.
    destruct (String.length line <? 60)%nat.
    + cbn [mbind exc_bind]. now apply IH.
    + destruct (Str.contains "END OF HEADER" (line_label line)).
      * cbn [mbind exc_bind]. intros [= <- _]. exact Hd.
      * destruct (handle_m _ _ d) as [d1|e] eqn:Hh; [|discriminate].
        cbn [mbind exc_bind]. apply IH. now apply (Hstep _ _ _ _ Hd Hh).
Qed.

End HeaderMore.

Lemma header_init_initial_keys : initial_keys header_init.
Proof. intros k _. reflexivity. Qed.

Lemma header_init_systems_match : systems_match header_init.
Proof.
  exists ∅, ∅.
  split; [reflexivity|]. split; [reflexivity|]. split.
  - intros sys. split.
    + intros Hin. exfalso. exact (not_elem_of_empty (C:=gset string) sys Hin).
    + intros [_ [l Hl]]. rewrite lookup_empty in Hl. discriminate Hl.
  - intros sys Hin. exfalso.
    exact (not_elem_of_empty (C:=gset string) sys Hin).
Qed.

Lemma system_test (c : ascii) (r : string) :
  Str.isalpha_char c && (String.length (String c r) =? 1)%nat
  = starts_system (String c r).
Proof. destruct r; simpl; [apply andb_true_r | apply andb_false_r]. Qed.

Section HeaderResults.

Variable math_atan2 : Float.float -> Float.float -> Float.float.
Variable math_sin : Float.float -> exc Float.float.
Variable math_cos : Float.float -> exc Float.float.

Abbreviation handle_r := (handle math_atan2 math_sin math_cos).
Abbreviation header_step_r := (header_step math_atan2 math_sin math_cos).
Abbreviation header_loop_r := (header_loop math_atan2 math_sin math_cos).
Abbreviation parse_rinex_header_r :=
  (parse_rinex_header math_atan2 math_sin math_cos).

(** X4. Whatever the lines, [parse_rinex_header] returns a record with
    exactly the keys it starts from: no field is ever missing from the
    result and none is added. *)
Theorem parse_rinex_header_keys (lines : list string) :
  exists r : header_record,
    parse_rinex_header_r lines = Ok r /\ dom r = dom header_init.
Proof.
  destruct (header_loop_total math_atan2 math_sin math_cos lines header_init
              header_init_well_formed) as (d & rest & Hloop & _).
  pose proof (header_loop_invariant math_atan2 math_sin math_cos initial_keys
                (handle_initial_keys math_atan2 math_sin math_cos)
                lines header_init d rest header_init_initial_keys Hloop)
    as Hkeys.
  exists (cleanup d). unfold parse_rinex_header. rewrite Hloop.
  split; [reflexivity|].
  apply set_eq. intros k. rewrite !elem_of_dom.
  destruct (decide (k = "_last_obs_system")) as [->|Hk].
  - unfold cleanup.
    destruct (d !! "_last_obs_system") eqn:Hlast.
    + rewrite lookup_delete_eq. split; intros [? H]; discriminate H.
    + rewrite Hlast. split; intros [? H]; discriminate H.
  - rewrite <- (Hkeys k Hk). unfold cleanup.
    destruct (d !! "_last_obs_system");
      [now rewrite lookup_delete_ne | reflexivity].
Qed.

(** X5. In the record that [parse_rinex_header] returns, the set
    [constellations_obs] holds exactly the keys of [observation_types]
    other than "ALL", and each of them is a single alphabetic character. *)
Theorem parse_rinex_header_systems (lines : list string) :
  exists r : header_record,
    parse_rinex_header_r lines = Ok r /\ systems_match r.
Proof.
  destruct (header_loop_total math_atan2 math_sin math_cos lines header_init
              header_init_well_formed) as (d & rest & Hloop & _).
  pose proof (header_loop_invariant math_atan2 math_sin math_cos systems_match
                (handle_systems_match math_atan2 math_sin math_cos)
                lines header_init d rest header_init_systems_match Hloop)
    as (m & s & Hm & Hs & Hiff & Hletter).
  exists (cleanup d). unfold parse_rinex_header. rewrite Hloop.
  split; [reflexivity|]. exists m, s. unfold cleanup.
  destruct (d !! "_last_obs_system");
    rewrite ?lookup_delete_ne by discriminate; auto.
Qed.

(** X6. A v2.x "# / TYPES OF OBSERV" line whose first item is a count
    [n >= 0] stores, under the key "ALL", the first [n] of the items that
    follow the count, or all of them when fewer than [n] are on the line. *)
Theorem types_of_observ_first_n (d : header_record) (line count : string)
    (codes : list string) (n : Z) :
  well_formed d ->
  (60 <= String.length line)%nat ->
  is_terminator line = false ->
  select_field (line_label line) = TypesOfObserv ->
  Str.split (line_content line) = count :: codes ->
  Num.int_of_str count = Ok n ->
  0 <= n ->
  exists d' : header_record,
    header_step_r d line = Ok (Next d')
    /\ obs_types_of d' "ALL" = Some (take (Z.to_nat n) codes)
    /\ (length (take (Z.to_nat n) codes) <= Z.to_nat n)%nat.
Proof.
  intros ([m Hm] & _) Hlen Hend Hfield Hsplit Hcount Hn.
  rewrite header_step_field, Hfield by assumption.
  unfold handle. rewrite Hsplit, Hcount. unfold get_dict. rewrite Hm.
  cbn [mbind exc_bind]. eexists. split; [reflexivity|]. split.
  - rewrite obs_types_of_set_types, lookup_insert_eq.
    now rewrite list_slice_from_1.
  - rewrite length_take. lia.
Qed.

(** X7. A "SYS / # / OBS TYPES" line changes nothing in three cases: it
    has fewer than two items (so a continuation line with a single code
    is dropped); it opens no system and no system line came before it;
    it opens a system but its count is no integer. *)
Theorem obs_types_line_ignored (d : header_record) (line : string) :
  well_formed d ->
  (60 <= String.length line)%nat ->
  is_terminator line = false ->
  select_field (line_label line) = SysObsTypes ->
  (length (Str.split (line_content line)) < 2)%nat
  \/ (exists t, head (Str.split (line_content line)) = Some t
        /\ starts_system t = false /\ d !! "_last_obs_system" = None)
  \/ (exists t count codes e,
        Str.split (line_content line) = t :: count :: codes
        /\ starts_system t = true /\ Num.int_of_str count = Raise e) ->
  header_step_r d line = Ok (Next d).
Proof.
  intros Hwf Hlen Hend Hfield Hcase.
  rewrite header_step_field, Hfield by assumption.
  pose proof (split_nonempty (line_content line)) as Hne.
  unfold handle.
  destruct (Str.split (line_content line)) as [|p0 [|p1 rest]];
    try reflexivity.
  inversion Hne as [|? ? Hp0 _]; subst.
  destruct p0 as [|c0 r0]; [congruence|].
  cbn [char0 mbind exc_bind]. rewrite system_test.
  destruct Hcase as [Hshort|[(t & [= <-] & Hsys & Hlast)
                            |(t & count & codes & e & [= <- <- <-] & Hsys & Hraise)]].
  - simpl in Hshort. lia.
  - now rewrite Hsys, Hlast.
  - rewrite Hsys, Hraise.
    now apply int_of_str_raises in Hraise as ->.
Qed.

End HeaderResults.

Lemma types_of_observ_first_n_witness :
  exists d' : header_record,
    header_step atan2_nan domain_error domain_error header_init
      (header_line "     4    C1    L1    L2    P2    P1" "# / TYPES OF OBSERV")
      = Ok (Next d')
    /\ obs_types_of d' "ALL" = Some ["C1"; "L1"; "L2"; "P2"].
Proof.
  destruct (types_of_observ_first_n atan2_nan domain_error domain_error
              header_init
              (header_line "     4    C1    L1    L2    P2    P1" "# / TYPES OF OBSERV")
              "4" ["C1"; "L1"; "L2"; "P2"; "P1"] 4 header_init_well_formed)
    as (d' & Hstep & Htypes & _).
  - vm_compute. lia.
  - vm_compute. reflexivity.
  - vm_compute. reflexivity.
  - vm_compute. reflexivity.
  - reflexivity.
  - lia.
  - exists d'. split; [exact Hstep | exact Htypes].
Defined.

Lemma obs_types_line_ignored_witness :
  header_step atan2_nan domain_error domain_error header_init
    (header_line "       L1L" "SYS / # / OBS TYPES")
  = Ok (Next header_init).
Proof.
  apply (obs_types_line_ignored atan2_nan domain_error domain_error
           header_init (header_line "       L1L" "SYS / # / OBS TYPES")
           header_init_well_formed).
  - vm_compute. lia.
  - vm_compute. reflexivity.
  - vm_compute. reflexivity.
  - left. vm_compute. lia.
Defined.

(** ** [parse_observation_data] *)

Lemma scan_body_invariant (P : scan_state -> Prop) :
  (forall st line, P st -> P (body_step st line)) ->
  forall (lines : list string) (st : scan_state),
    P st -> P (fold_left body_step lines st).
Proof.
  intros Hstep lines. induction lines as [|line lines IH]; intros st Hst;
    [exact Hst|]. cbn [fold_left]. apply IH, Hstep, Hst.
Qed.

Lemma note_epoch_bookkeeping (t : datetime) (st : scan_state) :
  in_epoch st = true ->
  epoch_bookkeeping (count_epoch st) ->
  (length (epoch_times st) <= 100)%nat ->
  Z.of_nat (length (epoch_times st)) <= epoch_count st ->
  epoch_bookkeeping (note_epoch t (count_epoch st)).
Proof.
  intros Hin (_ & Hfirst & Hlast & _ & _ & Hsys) Hlen Hcount.
  unfold epoch_bookkeeping, note_epoch, count_epoch in *.
  cbn [epoch_times first_epoch_time last_epoch_time epoch_count in_epoch
       constellations_in_data] in *.
  destruct (Nat.ltb_spec (length (epoch_times st)) 100) as [Hlt|Hge].
  - rewrite length_app. cbn [length]. repeat split; try lia; try assumption.
    + destruct (epoch_times st) as [|t0 ts]; rewrite Hfirst; reflexivity.
    + discriminate.
    + intros Happ. now apply app_eq_nil in Happ as [_ ?].
    + congruence.
  - repeat split; try lia; try assumption.
    + rewrite Hfirst. destruct (epoch_times st); [simpl in Hge; lia|].
      reflexivity.
    + discriminate.
    + intros Hnil. rewrite Hnil in Hge. simpl in Hge. lia.
    + congruence.
Qed.

Lemma body_step_bookkeeping (st : scan_state) (line : string) :
  epoch_bookkeeping st -> epoch_bookkeeping (body_step st line).
Proof.
  intros Hst. pose proof Hst as (Hlen & Hfirst & Hlast & Hcount & Hidle & Hsys).
  unfold body_step.
  destruct (Str.startswith ">" line).
  - assert (Hbase : epoch_bookkeeping (count_epoch (set_in_epoch st))).
    { unfold epoch_bookkeeping, count_epoch, set_in_epoch.
      cbn [epoch_times first_epoch_time last_epoch_time epoch_count in_epoch
           constellations_in_data].
      repeat split; try assumption; try lia; try apply Hlast; try discriminate. }
    destruct (catch_all (v3_epoch_time line)) as [[t|]|]; try exact Hbase.
    apply (note_epoch_bookkeeping t (set_in_epoch st));
      [reflexivity | exact Hbase | exact Hlen | exact Hcount].
  - destruct (v2_epoch_test line).
    + destruct (catch_all (v2_epoch_time line)) as [t|]; [|exact Hst].
      assert (Hnote : epoch_bookkeeping
                (note_epoch t (count_epoch (set_in_epoch st)))).
      { apply (note_epoch_bookkeeping t (set_in_epoch st));
          [reflexivity | | exact Hlen | exact Hcount].
        unfold epoch_bookkeeping, count_epoch, set_in_epoch.
        cbn [epoch_times first_epoch_time last_epoch_time epoch_count
             in_epoch constellations_in_data].
        repeat split; try assumption; try lia; try apply Hlast;
          try discriminate. }
      destruct Hnote as (H1 & H2 & H3 & H4 & H5 & H6).
      unfold epoch_bookkeeping, set_in_epoch, note_epoch, count_epoch in *.
      cbn [epoch_times first_epoch_time last_epoch_time epoch_count in_epoch
           constellations_in_data] in *.
      repeat split; try assumption; try apply H3; try discriminate.
    + destruct (in_epoch st) eqn:Hin; [|exact Hst]. cbn [andb].
      destruct (3 <? String.length line)%nat; [|exact Hst].
      destruct (Str.strip (Str.slice 0 3 line)) as [|c sat]; [exact Hst|].
      destruct (_ && _) eqn:Htest; [|exact Hst].
      apply andb_true_iff in Htest as [_ Halpha].
      unfold epoch_bookkeeping, add_constellation.
      cbn [epoch_times first_epoch_time last_epoch_time epoch_count in_epoch
           constellations_in_data].
      repeat split; try assumption; try apply Hlast; try congruence.
      intros sys [->%elem_of_singleton|Hin']%elem_of_union;
        [exact Halpha | now apply Hsys].
Qed.

Lemma scan_init_bookkeeping : epoch_bookkeeping scan_init.
Proof.
  unfold epoch_bookkeeping, scan_init.
  cbn [epoch_times first_epoch_time last_epoch_time epoch_count in_epoch
       constellations_in_data length head].
  repeat split; try lia; try reflexivity.
  intros sys Hin. exfalso.
  exact (not_elem_of_empty (C:=gset string) sys Hin).
Qed.

(** X8. Whatever the body lines, the scan keeps at most 100 timestamps;
    the first epoch time is the first of them; a last epoch time exists
    exactly when the list is non-empty; the list is never longer than the
    epoch count; and every recorded constellation code is a single
    alphabetic character. *)
Theorem scan_body_bookkeeping (lines : list string) :
  let st := scan_body lines in
  (length (epoch_times st) <= 100)%nat
  /\ first_epoch_time st = head (epoch_times st)
  /\ (last_epoch_time st = None <-> epoch_times st = [])
  /\ Z.of_nat (length (epoch_times st)) <= epoch_count st
  /\ (forall sys : string,
        sys ∈ constellations_in_data st -> starts_system sys = true).
Proof.
  pose proof (scan_body_invariant epoch_bookkeeping body_step_bookkeeping
                lines scan_init scan_init_bookkeeping)
    as (H1 & H2 & H3 & H4 & _ & H6).
  cbn zeta. fold (scan_body lines) in *. auto.
Qed.

Lemma body_step_no_epoch (line : string) :
  no_epoch_line line = true -> body_step scan_init line = scan_init.
Proof.
  unfold no_epoch_line, body_step.
  intros [Hv3 Hv2]%andb_true_iff.
  apply negb_true_iff in Hv3, Hv2. now rewrite Hv3, Hv2.
Qed.

(** X9. Body lines that come before the first epoch header have no
    effect: satellite lines are recorded only once an epoch line has
    been seen. *)
Theorem scan_body_skips_leading_lines (leading rest : list string) :
  Forall (fun l => no_epoch_line l = true) leading ->
  scan_body (leading ++ rest) = scan_body rest.
Proof.
  intros Hlead. unfold scan_body. rewrite fold_left_app. f_equal.
  induction Hlead as [|line leading Hline _ IH]; [reflexivity|].
  cbn [fold_left]. now rewrite body_step_no_epoch.
Qed.

Lemma scan_body_skips_leading_lines_witness :
  scan_body (["G01  20000000.000"; "R07  21000000.000"]
             ++ ["> 2024 01 01 00 00  0.0000000  0  1"])
  = scan_body ["> 2024 01 01 00 00  0.0000000  0  1"].
Proof.
  apply (scan_body_skips_leading_lines
           ["G01  20000000.000"; "R07  21000000.000"]).
  repeat constructor.
Defined.

Lemma body_step_epoch_count (st : scan_state) (line : string) :
  epoch_count (body_step st line)
  = epoch_count st + (if counted_line line then 1 else 0).
Proof.
  unfold body_step, counted_line.
  destruct (Str.startswith ">" line); cbn [orb].
  - destruct (catch_all (v3_epoch_time line)) as [[t|]|]; reflexivity.
  - destruct (v2_epoch_test line); cbn [andb].
    + unfold catch_all. destruct (v2_epoch_time line); cbn; lia.
    + destruct (in_epoch st && _); [|lia].
      destruct (Str.strip _); [lia|]. destruct (_ && _); cbn; lia.
Qed.

(** X10. The epoch count of the scan is the number of body lines that
    start with '>', whether their time parses or not, plus the number of
    lines that pass the v2.x test and whose time parses. *)
Theorem scan_body_epoch_count (lines : list string) :
  epoch_count (scan_body lines)
  = Z.of_nat (length (List.filter counted_line lines)).
Proof.
  unfold scan_body.
  assert (Hgen : forall st,
            epoch_count (fold_left body_step lines st)
            = epoch_count st + Z.of_nat (length (List.filter counted_line lines))).
  { induction lines as [|line lines IH]; intros st; cbn [fold_left List.filter].
    - cbn [length]. lia.
    - rewrite IH, body_step_epoch_count.
      destruct (counted_line line); cbn [length]; lia. }
  rewrite Hgen. reflexivity.
Qed.

Lemma startswith_take (p s : string) (k : nat) :
  Str.startswith p (Str.take k s) = true -> Str.startswith p s = true.
Proof.
  revert s k. induction p as [|a p IH]; intros s k; [reflexivity|].
  destruct k as [|k], s as [|b s]; cbn [Str.take Str.startswith];
    try discriminate.
  intros [Hab Hrest]%andb_true_iff. rewrite Hab. cbn [andb]. eauto.
Qed.

Lemma contains_cons (p : string) (c : ascii) (s : string) :
  Str.contains p s = true -> Str.contains p (String c s) = true.
Proof. intros Hs. cbn [Str.contains]. rewrite Hs. apply orb_true_r. Qed.

Lemma contains_take (p s : string) (k : nat) :
  Str.contains p (Str.take k s) = true -> Str.contains p s = true.
Proof.
  revert k. induction s as [|c s IH]; intros k.
  - destruct k; exact id.
  - destruct k as [|k].
    + cbn [Str.take Str.contains]. rewrite orb_false_r. intros Hp.
      destruct p; [reflexivity | discriminate Hp].
    + cbn [Str.take Str.contains].
      intros [Hhere|Hlater]%orb_true_iff; apply orb_true_iff.
      * left. apply (startswith_take p (String c s) (S k)). exact Hhere.
      * right. now apply (IH k).
Qed.

Lemma contains_drop (p s : string) (n : nat) :
  Str.contains p (Str.drop n s) = true -> Str.contains p s = true.
Proof.
  revert s. induction n as [|n IH]; intros s; [exact id|].
  destruct s as [|c s]; [exact id|]. cbn [Str.drop].
  intros Hs. apply contains_cons, IH, Hs.
Qed.

Lemma contains_lstrip (p s : string) :
  Str.contains p (Str.lstrip s) = true -> Str.contains p s = true.
Proof.
  induction s as [|c s IH]; [exact id|]. cbn [Str.lstrip].
  destruct (Str.isspace c); [|exact id].
  intros Hs. apply contains_cons, IH, Hs.
Qed.

Lemma rstrip_take (s : string) : exists k, Str.rstrip s = Str.take k s.
Proof.
  induction s as [|c s [k IH]]; [now exists O|]. cbn [Str.rstrip].
  destruct (Str.rstrip s) as [|c' r] eqn:Hr.
  - destruct (Str.isspace c); [now exists O | now exists 1%nat].
  - exists (S k). cbn [Str.take]. now rewrite <- IH.
Qed.

Lemma contains_strip (p s : string) :
  Str.contains p (Str.strip s) = true -> Str.contains p s = true.
Proof.
  unfold Str.strip. destruct (rstrip_take (Str.lstrip s)) as [k ->].
  intros Hs. now apply contains_lstrip, (contains_take _ _ k).
Qed.

(** A header terminator is a line that the body scan takes for one too. *)
Lemma terminator_quotes (line : string) :
  is_terminator line = true -> quotes_terminator line = true.
Proof.
  unfold is_terminator, quotes_terminator, line_label.
  intros [_ Hlabel]%andb_true_iff.
  now apply (contains_drop _ _ 60), contains_strip.
Qed.

Lemma drop_past {A : Type} (pre : list A) (x : A) (post : list A) :
  drop (S (length pre)) (pre ++ x :: post) = post.
Proof. induction pre as [|y pre IH]; [reflexivity | exact IH]. Qed.

Lemma find_header_end_cases (i : nat) (lines : list string) :
  Forall (fun l => quotes_terminator l = false) lines
    /\ find_header_end i lines = O
  \/ exists pre l post,
       lines = pre ++ l :: post
       /\ Forall (fun l => quotes_terminator l = false) pre
       /\ quotes_terminator l = true
       /\ find_header_end i lines = S (i + length pre).
Proof.
  revert i. induction lines as [|line lines IH]; intros i.
  - left. split; [constructor | reflexivity].
  - cbn [find_header_end]. fold (quotes_terminator line).
    destruct (quotes_terminator line) eqn:Hq.
    + right. exists [], line, lines. cbn [length app].
      repeat split; [constructor | assumption | f_equal; lia].
    + destruct (IH (S i)) as [[Hall Hend]|(pre & l & post & -> & Hpre & Hl & Hend)].
      * left. split; [now constructor | assumption].
      * right. exists (line :: pre), l, post. cbn [length app].
        repeat split; [now constructor | assumption | rewrite Hend; lia].
Qed.

(** X11. The body that [parse_observation_data] scans is what follows the
    first line containing the words "END OF HEADER" anywhere in it; when
    no line contains them, the body is the whole file, header included. *)
Theorem body_lines_cases (lines : list string) :
  Forall (fun l => quotes_terminator l = false) lines
    /\ body_lines lines = lines
  \/ exists pre l post,
       lines = pre ++ l :: post
       /\ Forall (fun l => quotes_terminator l = false) pre
       /\ quotes_terminator l = true
       /\ body_lines lines = post.
Proof.
  unfold body_lines.
  destruct (find_header_end_cases 0 lines)
    as [[Hall ->]|(pre & l & post & -> & Hpre & Hl & ->)].
  - left. split; [assumption | reflexivity].
  - right. exists pre, l, post. repeat split; try assumption.
    apply drop_past.
Qed.

Section HeaderAndBody.

Variable math_atan2 : Float.float -> Float.float -> Float.float.
Variable math_sin : Float.float -> exc Float.float.
Variable math_cos : Float.float -> exc Float.float.

Abbreviation header_loop_b := (header_loop math_atan2 math_sin math_cos).

Lemma header_loop_suffix (lines : list string) (d d' : header_record)
    (rest : list string) :
  header_loop_b d lines = Ok (d', rest) ->
  exists consumed, lines = consumed ++ rest.
Proof.
  revert d. induction lines as [|line lines IH]; intros d; cbn [header_loop].
  - intros [= _ <-]. now exists [].
  - destruct (header_step math_atan2 math_sin math_cos d line) as [[d1|]|e];
      cbn [mbind exc_bind]; try discriminate.
    + intros Hloop. destruct (IH d1 Hloop) as [consumed ->].
      now exists (line :: consumed).
    + intros [= _ <-]. now exists [line].
Qed.

Lemma no_quote_no_terminator (pre : list string) :
  Forall (fun l => quotes_terminator l = false) pre ->
  Forall (fun l => is_terminator l = false) pre.
Proof.
  intros Hpre. eapply Forall_impl; [exact Hpre|]. intros l Hq. cbn beta in *.
  destruct (is_terminator l) eqn:Hend; [|reflexivity].
  apply terminator_quotes in Hend. congruence.
Qed.

(** X12. On a file whose first line containing "END OF HEADER" is a
    header terminator (60 columns or more, the words in the label), the
    two scans agree: the header scan stops at that line, and the body
    scan reads exactly the lines after it. *)
Theorem header_and_body_agree (pre post : list string) (term : string) :
  Forall (fun l => quotes_terminator l = false) pre ->
  is_terminator term = true ->
  (exists d, header_loop_b header_init (pre ++ term :: post) = Ok (d, post))
  /\ body_lines (pre ++ term :: post) = post.
Proof.
  intros Hpre Hterm. split.
  - destruct (header_loop_prefix_any math_atan2 math_sin math_cos pre
                header_init header_init_well_formed
                (no_quote_no_terminator pre Hpre)) as (d & _ & Hloop).
    exists d. rewrite Hloop. cbn [header_loop].
    now rewrite (header_step_terminator _ _ _ d term Hterm).
  - unfold body_lines.
    assert (Hend : forall i,
              find_header_end i (pre ++ term :: post) = S (i + length pre)).
    { induction Hpre as [|l pre Hl _ IH]; intros i; cbn [app find_header_end].
      - fold (quotes_terminator term).
        rewrite (terminator_quotes term Hterm). cbn [length]. f_equal. lia.
      - fold (quotes_terminator l). rewrite Hl, IH. cbn [length]. lia. }
    rewrite Hend. apply drop_past.
Qed.

(** X13. On every file, the body scan reads at least the lines that the
    header scan left unread: it may start too early, never too late. *)
Theorem body_covers_unread_lines (lines : list string) :
  exists (d : header_record) (unread early : list string),
    header_loop_b header_init lines = Ok (d, unread)
    /\ body_lines lines = early ++ unread.
Proof.
  destruct (header_loop_total math_atan2 math_sin math_cos lines header_init
              header_init_well_formed) as (d & unread & Hloop & _).
  exists d, unread.
  assert (Hearly : exists early, body_lines lines = early ++ unread);
    [|destruct Hearly as [early Hearly]; exists early; auto].
  destruct (body_lines_cases lines)
    as [[_ Hbody]|(pre & l & post & -> & Hpre & Hl & Hbody)].
  - destruct (header_loop_suffix _ _ _ _ Hloop) as [consumed Hlines].
    exists consumed. congruence.
  - destruct (header_loop_prefix_any math_atan2 math_sin math_cos pre
                header_init header_init_well_formed
                (no_quote_no_terminator pre Hpre)) as (d0 & Hwf0 & Hpref).
    rewrite Hpref in Hloop. cbn [header_loop] in Hloop.
    destruct (header_step math_atan2 math_sin math_cos d0 l) as [[d1|]|e];
      cbn [mbind exc_bind] in Hloop; try discriminate.
    + destruct (header_loop_suffix _ _ _ _ Hloop) as [consumed Hpost].
      exists consumed. congruence.
    + injection Hloop as _ <-. exists []. exact Hbody.
Qed.

End HeaderAndBody.

(** ** The whole of [parse_observation_data] *)

Lemma counts_nonzero :
  forallb (fun n => negb (Float.is_zero (Float.of_Z (Z.of_nat n)))) counts
  = true.
Proof. vm_compute. reflexivity. Qed.

Lemma count_nonzero (n : nat) :
  (1 <= n <= 100)%nat -> Float.is_zero (Float.of_Z (Z.of_nat n)) = false.
Proof.
  intros Hn. pose proof counts_nonzero as Hall.
  rewrite forallb_forall in Hall.
  apply negb_true_iff, Hall. unfold counts. apply in_seq. lia.
Qed.

Lemma interval_stats_total (first : Float.float) (others : list Float.float) :
  (length (first :: others) <= 100)%nat ->
  exists r, interval_stats first others = Ok r.
Proof.
  intros Hlen. unfold interval_stats, Float.truediv.
  rewrite count_nonzero by (cbn [length] in *; lia).
  cbn [mbind exc_bind]. destruct (Float.ltb _ _); eauto.
Qed.

Lemma retained_length (times : list datetime) :
  (length (retained times) <= length times - 1)%nat.
Proof.
  unfold retained, consecutive_deltas.
  etransitivity; [apply filter_length_le|].
  now rewrite length_map, delta_list_length.
Qed.

(** X14. [parse_observation_data] never raises, whatever the lines (the
    division by the number of intervals cannot fail, at most 99 of them
    being kept).  In its result at most 100 timestamps are held, and
    without a parsed epoch the epoch count is 0 and no interval is
    calculated; the two interval fields are set together. *)
Theorem parse_observation_data_total (lines : list string) :
  exists r : observation_record,
    parse_observation_data lines = Ok r
    /\ (length (or_epoch_times r) <= 100)%nat
    /\ (or_actual_start r = None ->
          or_num_epochs r = 0 /\ or_calculated_interval r = None)
    /\ (or_calculated_interval r = None <-> or_interval_consistent r = None).
Proof.
  unfold parse_observation_data.
  destruct (scan_body_bookkeeping (body_lines lines))
    as (Hlen & Hfirst & Hlast & _ & _).
  set (st := scan_body (body_lines lines)) in *.
  assert (Hcalc : exists c, calculate_interval (epoch_times st) = Ok c
            /\ (epoch_times st = [] -> c = None)).
  { rewrite calculate_interval_retained.
    pose proof (retained_length (epoch_times st)) as Hret.
    destruct (retained (epoch_times st)) as [|first others] eqn:Hr.
    - eauto.
    - destruct (interval_stats_total first others) as [r ->];
        [cbn [length] in *; lia|].
      cbn [mbind exc_bind]. eexists. split; [reflexivity|].
      intros Hnil. rewrite Hnil in Hret. cbn [length] in Hret. lia. }
  destruct Hcalc as (c & -> & Hnone). cbn [mbind exc_bind].
  destruct (first_epoch_time st) as [first|] eqn:Hf,
           (last_epoch_time st) as [last|] eqn:Hl;
    (eexists; split; [reflexivity|]);
    cbn [or_epoch_times or_actual_start or_num_epochs or_calculated_interval
         or_interval_consistent];
    (split; [exact Hlen|]); (split; [|destruct c; cbn; split; congruence]).
  - discriminate.
  - intros _. split; [reflexivity|].
    rewrite Hnone; [reflexivity|]. now apply Hlast.
  - intros _. split; [reflexivity|].
    rewrite Hnone; [reflexivity|].
    destruct (epoch_times st); [reflexivity | discriminate Hfirst].
  - intros _. split; [reflexivity|].
    rewrite Hnone; [reflexivity|]. now apply Hlast.
Qed.

(** ** [get_system_name] and [get_constellation_names] *)

Lemma ascii_compare_le_trans (a b c : ascii) :
  Ascii.compare a b <> Gt -> Ascii.compare b c <> Gt ->
  Ascii.compare a c <> Gt.
Proof.
  unfold Ascii.compare. rewrite !N.compare_gt_iff. lia.
Qed.

Lemma string_compare_le_trans (a b c : string) :
  String.compare a b <> Gt -> String.compare b c <> Gt ->
  String.compare a c <> Gt.
Proof.
  revert b c. induction a as [|x a IH]; intros [|y b] [|z c];
    cbn [String.compare]; try congruence.
  unfold Ascii.compare.
  destruct (N.compare_spec (N_of_ascii x) (N_of_ascii y)) as [Hxy|Hxy|Hxy];
    destruct (N.compare_spec (N_of_ascii y) (N_of_ascii z)) as [Hyz|Hyz|Hyz];
    destruct (N.compare_spec (N_of_ascii x) (N_of_ascii z)) as [Hxz|Hxz|Hxz];
    try congruence; try lia; try apply IH.
Qed.

#[global] Instance str_le_trans : Transitive str_le.
Proof.
  intros a b c. unfold str_le, String.leb. intros Hab Hbc.
  pose proof (string_compare_le_trans a b c) as Htrans.
  destruct (String.compare a b); try discriminate;
    destruct (String.compare b c); try discriminate;
    destruct (String.compare a c); try reflexivity;
    exfalso; apply Htrans; congruence.
Qed.

#[global] Instance str_le_total : Total str_le.
Proof. intros a b. apply String.leb_total. Qed.

#[global] Instance str_le_antisym : AntiSymm (=) str_le.
Proof. intros a b. apply String.leb_antisym. Qed.

(** X15. [get_constellation_names] does not depend on the order in which
    the codes of the set arrive: it names them in the sorted order of the
    codes, one name per code. *)
Theorem get_constellation_names_order (codes codes' : list string) :
  codes ≡ₚ codes' ->
  get_constellation_names codes = get_constellation_names codes'
  /\ Sorted str_le (sorted codes)
  /\ sorted codes ≡ₚ codes
  /\ length (get_constellation_names codes) = length codes.
Proof.
  intros Hperm.
  assert (Hsame : sorted codes = sorted codes').
  { apply (Sorted_unique str_le); try apply Sorted_merge_sort; try apply _.
    unfold sorted. now rewrite !merge_sort_Permutation. }
  split; [|split; [|split]].
  - unfold get_constellation_names. now rewrite Hsame.
  - apply Sorted_merge_sort. apply _.
  - apply merge_sort_Permutation.
  - unfold get_constellation_names, sorted.
    now rewrite length_map, merge_sort_Permutation.
Qed.

Lemma get_constellation_names_order_witness :
  get_constellation_names ["R"; "G"; "E"]
  = get_constellation_names ["E"; "R"; "G"].
Proof.
  apply (get_constellation_names_order ["R"; "G"; "E"] ["E"; "R"; "G"]).
  change ["R"; "G"; "E"] with (["R"; "G"] ++ ["E"]).
  change ["E"; "R"; "G"] with (["E"] ++ ["R"; "G"]).
  apply Permutation_app_comm.
Defined.

Lemma system_names_lookup (code name : string) :
  system_names !! code = Some name ->
  In (code, name)
    [ ("G", "GPS"); ("R", "GLONASS"); ("E", "Galileo"); ("C", "BeiDou");
      ("J", "QZSS"); ("I", "IRNSS/NavIC"); ("S", "SBAS");
      ("ALL", "All Systems"); ("M", "Mixed") ].
Proof.
  intros Hlook. apply list_elem_of_In.
  now apply elem_of_list_to_map_2 in Hlook.
Qed.

(** X16. [get_system_name] leaves a code it does not know unchanged, and
    naming twice is naming once (no full name is itself a code).  The
    table of [get_constellation_names] is the same but for the code "M",
    which only [get_system_name] translates. *)
Theorem get_system_name_table (code : string) :
  (system_names !! code = None -> get_system_name code = code)
  /\ get_system_name (get_system_name code) = get_system_name code
  /\ (code <> "M" ->
        default code (constellation_names !! code) = get_system_name code)
  /\ get_system_name "M" = "Mixed"
  /\ get_constellation_names ["M"] = ["M"].
Proof.
  split; [|split; [|split; [|split]]].
  - intros Hnone. unfold get_system_name. now rewrite Hnone.
  - unfold get_system_name at 2 3.
    destruct (system_names !! code) as [name|] eqn:Hlook; cbn [default].
    + apply system_names_lookup in Hlook. cbn [In] in Hlook.
      repeat (destruct Hlook as [[= <- <-]|Hlook]; [vm_compute; reflexivity|]).
      contradiction.
    + unfold get_system_name. now rewrite Hlook.
  - intros HM. unfold get_system_name.
    change system_names with (<["M" := "Mixed"]> constellation_names).
    now rewrite lookup_insert_ne.
  - reflexivity.
  - reflexivity.
Qed.

(** ** Instances of the statements above that have hypotheses *)

Lemma parse_rinex_header_stops_at_terminator_witness :
  parse_rinex_header atan2_nan domain_error domain_error
    ([header_line "    30.000" "INTERVAL"]
     ++ header_line "" "END OF HEADER"
        :: [header_line "     1.000" "INTERVAL"])
  = parse_rinex_header atan2_nan domain_error domain_error
      [header_line "    30.000" "INTERVAL"].
Proof.
  apply (parse_rinex_header_stops_at_terminator atan2_nan domain_error
           domain_error [header_line "    30.000" "INTERVAL"]
           [header_line "     1.000" "INTERVAL"]
           (header_line "" "END OF HEADER")).
  - repeat constructor.
  - vm_compute. reflexivity.
Defined.

Lemma header_and_body_agree_witness :
  body_lines ([header_line "    30.000" "INTERVAL"]
              ++ header_line "" "END OF HEADER"
                 :: ["> 2024 01 01 00 00  0.0000000  0  1"])
  = ["> 2024 01 01 00 00  0.0000000  0  1"].
Proof.
  apply (header_and_body_agree atan2_nan domain_error domain_error
           [header_line "    30.000" "INTERVAL"]
           ["> 2024 01 01 00 00  0.0000000  0  1"]
           (header_line "" "END OF HEADER")).
  - repeat constructor.
  - vm_compute. reflexivity.
Defined.

(** ** The blocks of "SYS / # / OBS TYPES" lines *)

Section ObsTypesBlock.

Variable math_atan2 : Float.float -> Float.float -> Float.float.
Variable math_sin : Float.float -> exc Float.float.
Variable math_cos : Float.float -> exc Float.float.

Abbreviation handle_b := (handle math_atan2 math_sin math_cos).
Abbreviation header_step_b := (header_step math_atan2 math_sin math_cos).
Abbreviation header_loop_b := (header_loop math_atan2 math_sin math_cos).
Abbreviation parse_rinex_header_b :=
  (parse_rinex_header math_atan2 math_sin math_cos).

(** What the "SYS / # / OBS TYPES" branch does to the record, case by
    case *)
Lemma handle_obs_types (content : string) (d : header_record) :
  well_formed d ->
  exists d', handle_b SysObsTypes content d = Ok d' /\ well_formed d'
    /\ match Str.split content with
       | p0 :: p1 :: rest =>
           if starts_system p0 then
             match Num.int_of_str p1 with
             | Ok _ =>
                 d' !! "_last_obs_system" = Some (VStr p0)
                 /\ forall sys, obs_types_of d' sys
                      = if decide (sys = p0) then Some rest
                        else obs_types_of d sys
             | Raise _ => d' = d
             end
           else
             match d !! "_last_obs_system" with
             | Some (VStr s) =>
                 d' !! "_last_obs_system" = Some (VStr s)
                 /\ forall sys, obs_types_of d' sys
                      = if decide (sys = s)
                        then (fun listed => listed ++ p0 :: p1 :: rest)
                               <$> obs_types_of d s
                        else obs_types_of d sys
             | _ => d' = d
             end
       | _ => d' = d
       end.
Proof.
  intros Hwf. pose proof (split_nonempty content) as Hne.
  pose proof Hwf as ([m Hm] & [st Hs] & Hl).
  unfold handle.
  destruct (Str.split content) as [|p0 [|p1 rest]];
    try (exists d; split; [reflexivity | split; [assumption | reflexivity]]).
  apply Stdlib.Lists.List.Forall_inv in Hne.
  destruct p0 as [|c0 r0]; [congruence|].
  cbn [char0 mbind exc_bind]. rewrite system_test.
  destruct (starts_system (String c0 r0)) eqn:Hsys.
  - destruct (Num.int_of_str p1) as [n|e] eqn:Hnum.
    + unfold get_dict, get_set. rewrite Hm. cbn [mbind exc_bind].
      rewrite lookup_insert_ne by discriminate. rewrite Hs.
      cbn [mbind exc_bind].
      eexists. split; [reflexivity|]. split; [|split].
      * apply well_formed_set_str; try discriminate.
        now apply well_formed_set_systems, well_formed_set_types.
      * apply lookup_insert_eq.
      * intros sys.
        rewrite obs_types_of_set_str, obs_types_of_set_systems,
          obs_types_of_set_types by discriminate.
        destruct (decide (sys = String c0 r0)) as [->|Hother];
          [apply lookup_insert_eq|].
        rewrite lookup_insert_ne by congruence.
        unfold obs_types_of. now rewrite Hm.
    + apply int_of_str_raises in Hnum as ->.
      exists d; split; [reflexivity | split; [assumption | reflexivity]].
  - destruct (d !! "_last_obs_system") as [v|] eqn:Hv;
      [|exists d; split; [reflexivity | split; [assumption | reflexivity]]].
    destruct (Hl v eq_refl) as [s ->]. cbn [as_str mbind exc_bind].
    unfold get_dict. rewrite Hm. cbn [mbind exc_bind].
    destruct (m !! s) as [listed|] eqn:Hlisted.
    + eexists. split; [reflexivity|].
      split; [now apply well_formed_set_types|]. split.
      * now rewrite lookup_insert_ne.
      * intros sys. rewrite obs_types_of_set_types.
        destruct (decide (sys = s)) as [->|Hother].
        -- rewrite lookup_insert_eq. unfold obs_types_of.
           now rewrite Hm, Hlisted.
        -- rewrite lookup_insert_ne by congruence.
           unfold obs_types_of. now rewrite Hm.
    + exists d. split; [reflexivity|]. split; [assumption|].
      split; [assumption|]. intros sys.
      destruct (decide (sys = s)) as [->|Hother]; [|reflexivity].
      unfold obs_types_of. now rewrite Hm, Hlisted.
Qed.

Lemma obs_types_line_field (line : string) :
  obs_types_line line = true ->
  (60 <= String.length line)%nat /\ is_terminator line = false
  /\ select_field (line_label line) = SysObsTypes.
Proof.
  unfold obs_types_line.
  intros [[Hlen Hend]%andb_true_iff Hfield]%andb_true_iff.
  apply Nat.leb_le in Hlen. apply negb_true_iff in Hend.
  repeat split; try assumption.
  destruct (select_field (line_label line)); (reflexivity || discriminate).
Qed.

Lemma header_step_obs_types (line : string) (d : header_record) :
  obs_types_line line = true ->
  header_step_b d line
  = (d' ← handle_b SysObsTypes (line_content line) d; Ok (Next d')).
Proof.
  intros (Hlen & Hend & Hfield)%obs_types_line_field.
  now rewrite header_step_field, Hfield by assumption.
Qed.

(** A line that neither reopens [sys] nor extends it leaves its list
    alone. *)
Lemma header_step_closed (sys : string) (other : bool) (line : string)
    (d : header_record) :
  well_formed d -> sys <> "ALL" -> is_terminator line = false ->
  match opens_system line with
  | Some s => s <> sys
  | None => other = true \/ continuation_line line = false
  end ->
  (other = true ->
     exists s, d !! "_last_obs_system" = Some (VStr s) /\ s <> sys) ->
  exists d', header_step_b d line = Ok (Next d') /\ well_formed d'
    /\ obs_types_of d' sys = obs_types_of d sys
    /\ (other = true \/ is_Some (opens_system line) ->
          exists s, d' !! "_last_obs_system" = Some (VStr s) /\ s <> sys).
Proof.
  intros Hwf Hsys Hend Hline Hlast.
  destruct (obs_types_line line) eqn:Hobs.
  - rewrite (header_step_obs_types line d Hobs).
    destruct (handle_obs_types (line_content line) d Hwf)
      as (d' & -> & Hwf' & Hcase).
    exists d'. split; [reflexivity|]. split; [assumption|].
    unfold opens_system, continuation_line, line_parts in *.
    rewrite Hobs in *.
    destruct (Str.split (line_content line)) as [|p0 [|p1 rest]].
    + subst d'. split; [reflexivity|].
      intros [Ho|[? [=]]]. auto.
    + subst d'. split; [reflexivity|].
      intros [Ho|[? [=]]]. auto.
    + destruct (starts_system p0) eqn:Hp0.
      * destruct (Num.int_of_str p1) as [n|e].
        -- destruct Hcase as [Hl' Ht]. split.
           ++ rewrite Ht. destruct (decide (sys = p0)); [congruence|reflexivity].
           ++ intros _. exists p0. auto.
        -- subst d'. split; [reflexivity|].
           intros [Ho|[? [=]]]. auto.
      * destruct Hline as [Ho|[=]].
        destruct (Hlast Ho) as (s & Hs & Hother).
        rewrite Hs in Hcase. destruct Hcase as [Hl' Ht]. split.
        -- rewrite Ht. destruct (decide (sys = s)); [congruence|reflexivity].
        -- intros _. exists s. auto.
  - assert (Hnone : opens_system line = None)
      by (unfold opens_system; now rewrite Hobs).
    rewrite Hnone in *.
    destruct (Nat.ltb_spec (String.length line) 60) as [Hlt|Hge].
    + rewrite header_step_short by assumption.
      exists d. split; [reflexivity|]. split; [assumption|].
      split; [reflexivity|]. intros [Ho|[? [=]]]. auto.
    + rewrite header_step_field by assumption.
      destruct (handle_total math_atan2 math_sin math_cos
                  (select_field (line_label line)) (line_content line) d Hwf)
        as (d' & Hh & Hwf').
      assert (Hfield : select_field (line_label line) <> SysObsTypes).
      { intros Hfield. unfold obs_types_line in Hobs.
        rewrite Hend, Hfield in Hobs.
        destruct (Nat.leb_spec 60 (String.length line)); [discriminate|lia]. }
      destruct (handle_frame math_atan2 math_sin math_cos _ _ sys _ _
                  Hfield Hsys Hh) as [Htypes Hsame].
      rewrite Hh. exists d'. split; [reflexivity|]. split; [assumption|].
      split; [assumption|]. rewrite Hsame. intros [Ho|[? [=]]]. auto.
Qed.

(** Up to the end of the header, lines that leave [sys] alone do not
    change its list. *)
Lemma header_loop_closed (sys : string) (lines : list string) :
  sys <> "ALL" ->
  forall (other : bool) (d : header_record),
    well_formed d ->
    block_closed sys other lines = true ->
    (other = true ->
       exists s, d !! "_last_obs_system" = Some (VStr s) /\ s <> sys) ->
    exists d' rest, header_loop_b d lines = Ok (d', rest)
      /\ obs_types_of d' sys = obs_types_of d sys.
Proof.
  intros Hsys. induction lines as [|line lines IH];
    intros other d Hwf Hclosed Hlast.
  - exists d, []. auto.
  - cbn [block_closed] in Hclosed. cbn [header_loop].
    destruct (is_terminator line) eqn:Hend.
    + rewrite header_step_terminator by assumption.
      exists d, lines. auto.
    + destruct (opens_system line) as [s|] eqn:Hopens.
      * apply andb_true_iff in Hclosed as [Hother Hclosed].
        apply negb_true_iff, String.eqb_neq in Hother.
        destruct (header_step_closed sys other line d Hwf Hsys Hend)
          as (d1 & -> & Hwf1 & Htypes1 & Hlast1);
          [now rewrite Hopens | assumption |].
        cbn [mbind exc_bind].
        destruct (IH true d1 Hwf1 Hclosed) as (d' & rest & -> & Htypes).
        { intros _. apply Hlast1. right. rewrite Hopens. eauto. }
        exists d', rest. split; [reflexivity|]. congruence.
      * apply andb_true_iff in Hclosed as [Hline Hclosed].
        destruct (header_step_closed sys other line d Hwf Hsys Hend)
          as (d1 & -> & Hwf1 & Htypes1 & Hlast1); [|assumption|].
        { rewrite Hopens. apply orb_true_iff in Hline as [Ho|Hc];
            [now left | right; now apply negb_true_iff]. }
        cbn [mbind exc_bind].
        destruct (IH other d1 Hwf1 Hclosed) as (d' & rest & -> & Htypes).
        { intros Ho. apply Hlast1. now left. }
        exists d', rest. split; [reflexivity|]. congruence.
Qed.

Lemma continuation_line_parts (line : string) :
  continuation_line line = true ->
  obs_types_line line = true
  /\ exists p0 p1 rest, Str.split (line_content line) = p0 :: p1 :: rest
       /\ starts_system p0 = false.
Proof.
  unfold continuation_line, line_parts.
  intros [Hobs Hparts]%andb_true_iff. split; [assumption|].
  destruct (Str.split (line_content line)) as [|p0 [|p1 rest]];
    try discriminate.
  exists p0, p1, rest. split; [reflexivity|]. now apply negb_true_iff.
Qed.

(** Continuation lines extend the list of the system opened last, each
    with all its items. *)
Lemma header_loop_continuations (sys : string) (conts rest : list string) :
  forall (d : header_record) (listed : list string),
    well_formed d ->
    d !! "_last_obs_system" = Some (VStr sys) ->
    obs_types_of d sys = Some listed ->
    Forall (fun l => continuation_line l = true) conts ->
    exists d', well_formed d'
      /\ header_loop_b d (conts ++ rest) = header_loop_b d' rest
      /\ d' !! "_last_obs_system" = Some (VStr sys)
      /\ obs_types_of d' sys = Some (listed ++ concat (map line_parts conts)).
Proof.
  induction conts as [|line conts IH]; intros d listed Hwf Hlast Hlisted Hconts.
  - exists d. cbn [map concat]. rewrite app_nil_r. auto.
  - apply Forall_cons in Hconts as [Hline Hconts].
    apply continuation_line_parts in Hline
      as (Hobs & p0 & p1 & items & Hsplit & Hp0).
    destruct (handle_obs_types (line_content line) d Hwf)
      as (d1 & Hh & Hwf1 & Hcase).
    rewrite Hsplit, Hp0, Hlast in Hcase. destruct Hcase as [Hlast1 Htypes1].
    specialize (Htypes1 sys). rewrite decide_True in Htypes1 by reflexivity.
    rewrite Hlisted in Htypes1. cbn [fmap option_fmap option_map] in Htypes1.
    destruct (IH d1 _ Hwf1 Hlast1 Htypes1 Hconts)
      as (d' & Hwf' & Hloop & Hlast' & Htypes').
    exists d'. split; [assumption|]. split; [|split; [assumption|]].
    + cbn [app header_loop].
      rewrite (header_step_obs_types line d Hobs), Hh.
      cbn [mbind exc_bind]. exact Hloop.
    + rewrite Htypes'. cbn [map concat]. unfold line_parts at 2.
      rewrite Hsplit. now rewrite <- app_assoc.
Qed.

(** X17. A "SYS / # / OBS TYPES" block: a line that opens system [sys],
    then any number of continuation lines, each with at least two items
    of which the first is no bare letter.  Whatever comes before the
    block, and whatever follows it as long as no later line of the header
    opens [sys] again and no further continuation line comes before
    another system is opened, the returned record lists under [sys] the
    items of the opening line after the first two, followed by all the
    items of the continuation lines, in order.  The declared count plays
    no part. *)
Theorem continuation_extends_last_system
    (sys : string) (pre conts rest : list string) (first : string) :
  Forall (fun l => is_terminator l = false) pre ->
  opens_system first = Some sys ->
  Forall (fun l => continuation_line l = true) conts ->
  block_closed sys false rest = true ->
  exists r : header_record,
    parse_rinex_header_b (pre ++ first :: conts ++ rest) = Ok r
    /\ obs_types_of r sys
       = Some (drop 2 (line_parts first) ++ concat (map line_parts conts)).
Proof.
  intros Hpre Hopens Hconts Hclosed.
  destruct (header_loop_prefix math_atan2 math_sin math_cos pre
              (first :: conts ++ rest) header_init
              header_init_well_formed Hpre) as (d0 & Hwf0 & Hloop0).
  unfold opens_system in Hopens.
  destruct (obs_types_line first) eqn:Hobs; [|discriminate].
  unfold line_parts in Hopens |- *.
  destruct (handle_obs_types (line_content first) d0 Hwf0)
    as (d1 & Hh1 & Hwf1 & Hcase).
  destruct (Str.split (line_content first)) as [|p0 [|p1 listed]];
    try discriminate.
  destruct (starts_system p0) eqn:Hp0; [|discriminate].
  destruct (Num.int_of_str p1) as [n|e]; [|discriminate].
  injection Hopens as ->. destruct Hcase as [Hlast1 Htypes1].
  specialize (Htypes1 sys). rewrite decide_True in Htypes1 by reflexivity.
  destruct (header_loop_continuations sys conts rest d1 listed Hwf1 Hlast1
              Htypes1 Hconts) as (d2 & Hwf2 & Hloop2 & _ & Htypes2).
  destruct (header_loop_closed sys rest (starts_system_not_all sys Hp0)
              false d2 Hwf2 Hclosed ltac:(discriminate))
    as (d3 & rest' & Hloop3 & Htypes3).
  exists (cleanup d3). split.
  - unfold parse_rinex_header. rewrite Hloop0. cbn [header_loop].
    rewrite (header_step_obs_types first d0 Hobs), Hh1.
    cbn [mbind exc_bind]. rewrite Hloop2, Hloop3. reflexivity.
  - rewrite obs_types_of_cleanup, Htypes3, Htypes2. reflexivity.
Qed.

End ObsTypesBlock.

Lemma continuation_extends_last_system_witness :
  exists r : header_record,
    parse_rinex_header atan2_nan domain_error domain_error two_system_header
      = Ok r
    /\ obs_types_of r "G"
       = Some ["C1C"; "L1C"; "D1C"; "S1C"; "C2W"; "L2W"; "D2W"; "S2W";
               "C5Q"; "L5Q"; "D5Q"; "S5Q"; "C1L"; "L1L"; "D1L"; "S1L";
               "C2L"; "L2L"; "D2L"; "S2L"; "C2S"; "L2S"; "D2S"; "S2S";
               "C1W"; "L1W"; "D1W"; "S1W"].
Proof.
  apply (continuation_extends_last_system atan2_nan domain_error domain_error
           "G" (take 1 two_system_header)
           (take 2 (drop 2 two_system_header))
           (drop 4 two_system_header)
           (header_line "G   28 C1C L1C D1C S1C C2W L2W D2W S2W C5Q L5Q D5Q S5Q C1L" "SYS / # / OBS TYPES")).
  - repeat constructor.
  - vm_compute. reflexivity.
  - repeat constructor; vm_compute; reflexivity.
  - vm_compute. reflexivity.
Defined.
